(** * youtube_data_fetch.py: pagination, comment budget and orchestration

    A shallow embedding of [youtube_data_fetch.py].  The remote YouTube Data
    API is an oracle ([api]) that answers a request either with a decoded
    response or by raising, and answers the same request the same way
    whenever it is asked.  Every function of the script becomes a function
    in a small logging monad whose log records, in program order, each
    request executed, each line printed, each prompt shown and each workbook
    saved.  The spreadsheet library is an oracle too ([sheets]): appending a
    row and saving the workbook may raise.  The script catches every
    exception around its requests, where an exception shows only as the
    [Raise] answer of the oracle and the line the handler prints; it catches
    none around the exports, so an exception raised there leaves [main].
    The two [while] loops carry a fuel argument: [None] means that the fuel
    ran out before the loop left, never that the script failed.  A string is
    a sequence of code points below 256. *)

From Stdlib Require Import List String Ascii ZArith Lia Bool Arith.
Import ListNotations.
Local Open Scope string_scope.
Local Open Scope list_scope.

(** ** Python built-ins used by the script *)

Module Py.

(** [str.split(sep)] with an explicit one-character separator: the result
    always has one more element than the string has separators. *)
Fixpoint split (sep : ascii) (s : string) : list string :=
  match s with
  | EmptyString => [EmptyString]
  | String c s' =>
      if Ascii.eqb c sep then EmptyString :: split sep s'
      else match split sep s' with
           | [] => [String c EmptyString]
           | seg :: segs => String c seg :: segs
           end
  end.

(** [xs[-1]]: [None] stands for [IndexError]. *)
Fixpoint last_item {A : Type} (xs : list A) : option A :=
  match xs with
  | [] => None
  | [x] => Some x
  | _ :: xs' => last_item xs'
  end.

(** Truth value of a [str]-or-[None] object: [None] and [''] are false. *)
Definition truthy (o : option string) : bool :=
  match o with
  | None => false
  | Some s => negb (String.eqb s EmptyString)
  end.

(** Characters [int()] strips from both ends of its argument: the blanks
    of C's [isspace] (9 to 13 and 32) and, of the code points from 128 on,
    the two Unicode blanks below 256, which it turns into spaces first. *)
Definition is_space (c : ascii) : bool :=
  let n := nat_of_ascii c in
  (Nat.leb 9 n && Nat.leb n 13) || Nat.eqb n 32
  || Nat.eqb n 133 || Nat.eqb n 160.

Definition is_digit (c : ascii) : bool :=
  let n := nat_of_ascii c in Nat.leb 48 n && Nat.leb n 57.

Definition digit_value (c : ascii) : Z := Z.of_nat (nat_of_ascii c - 48).

Fixpoint lstrip (l : list ascii) : list ascii :=
  match l with
  | c :: l' => if is_space c then lstrip l' else l
  | [] => []
  end.

Definition strip (l : list ascii) : list ascii :=
  rev (lstrip (rev (lstrip l))).

(** Decimal digits, single underscores allowed between two digits. *)
Fixpoint digits (l : list ascii) (acc : Z) (after_digit : bool) : option Z :=
  match l with
  | [] => if after_digit then Some acc else None
  | c :: l' =>
      if is_digit c then digits l' (10 * acc + digit_value c) true
      else if Ascii.eqb c "_"
           then (if after_digit then digits l' acc false else None)
           else None
  end.

(** The interpreter's default limit on the digits [int()] converts. *)
Definition max_str_digits : nat := 4300.

(** The digits after the sign, refused beyond the limit. *)
Definition limited_digits (l : list ascii) : option Z :=
  if Nat.leb (List.length (filter is_digit l)) max_str_digits
  then digits l 0 false
  else None.

(** [int(s)]: surrounding blanks, an optional sign, then decimal digits.
    [None] stands for [ValueError]. *)
Definition int (s : string) : option Z :=
  match strip (list_ascii_of_string s) with
  | c :: l =>
      if Ascii.eqb c "-" then option_map Z.opp (limited_digits l)
      else if Ascii.eqb c "+" then limited_digits l
      else limited_digits (c :: l)
  | [] => None
  end.

End Py.

(** ** Decoded API resources *)

(** Outcome of [request.execute()]. *)
Inductive result (A : Type) : Type :=
| Ok (a : A)
| Raise (e : string).
Arguments Ok {A} a.
Arguments Raise {A} e.

Record channel_item := { channel_id_of : string }.

Record search_item := { videoId : string }.

Record search_response := {
  search_items : list search_item;
  search_nextPageToken : option string
}.

Record video_item := {
  snippet_title : string;
  snippet_description : string;
  snippet_publishedAt : string;
  contentDetails_duration : string;
  statistics_viewCount : option string;
  statistics_likeCount : option string;
  statistics_commentCount : option string;
  thumbnails_default_url : string;
  thumbnails_medium_url : string;
  thumbnails_high_url : string
}.

Record comment_snippet := {
  textDisplay : string;
  authorDisplayName : string;
  publishedAt : string;
  likeCount : Z
}.

Record reply_item := {
  reply_id : string;
  reply_snippet : comment_snippet
}.

Record thread_item := {
  thread_id : string;
  topLevelComment : comment_snippet;
  replies : option (list reply_item)
}.

Record thread_response := {
  thread_items : list thread_item;
  thread_nextPageToken : option string
}.

(** The four remote operations the script calls. *)
Record api := {
  channels_list : string -> result (option (list channel_item));
  search_list : string -> option string -> result search_response;
  videos_list : string -> result (list video_item);
  commentThreads_list : string -> option string -> result thread_response
}.

(** ** Records built by the script *)

Module Video.
Record t := {
  video_id : string;
  title : string;
  description : string;
  published_at : string;
  duration : string;
  view_count : option string;
  like_count : option string;
  comment_count : option string;
  default_thumbnail : string;
  medium_thumbnail : string;
  high_thumbnail : string
}.
End Video.

Module Comment.
Record t := {
  video_id : string;
  comment_id : string;
  comment_text : string;
  author_name : string;
  published_at : string;
  like_count : Z;
  reply_to : option string
}.
End Comment.

(** ** Observable events and the logging monad *)

Inductive request :=
| ChannelsList (forHandle : string)
| SearchList (channelId : string) (pageToken : option string)
| VideosList (id : string)
| CommentThreadsList (videoId : string) (pageToken : option string).

Inductive cell :=
| CellStr (s : string)
| CellInt (z : Z)
| CellNone.

Inductive event :=
| Execute (r : request)
| Print (line : string)
| Input (prompt : string)
| SaveWorkbook (filename sheet : string) (rows : list (list cell)).

(** The spreadsheet library: what [ws.append(row)] answers for a row and
    what [wb.save(filename)] answers for a workbook with one sheet of the
    given title and rows.  Either may raise. *)
Record sheets := {
  ws_append : list cell -> result unit;
  wb_save : string -> string -> list (list cell) -> result unit
}.

Definition M (A : Type) : Type := option (A * list event).

Definition ret {A : Type} (a : A) : M A := Some (a, []).

Definition bind {A B : Type} (m : M A) (k : A -> M B) : M B :=
  match m with
  | None => None
  | Some (a, log1) =>
      match k a with
      | None => None
      | Some (b, log2) => Some (b, log1 ++ log2)
      end
  end.

Notation "x <- m ;; k" := (bind m (fun x => k))
  (at level 61, m at next level, right associativity).
Notation "m ;;; k" := (bind m (fun _ => k))
  (at level 61, right associativity).

Definition emit (e : event) : M unit := Some (tt, [e]).

Definition print (line : string) : M unit := emit (Print line).

Definition execute {A : Type} (r : request) (response : result A)
  : M (result A) :=
  Some (response, [Execute r]).

(** ** The script *)

Section Script.

(** The module-level client [youtube] and the imported library
    [openpyxl]. *)
Variable youtube : api.
Variable openpyxl : sheets.

Definition get_channel_id_by_username (username : string)
  : M (option string) :=
  response <- execute (ChannelsList username)
                      (channels_list youtube username) ;;
  match response with
  | Ok (Some (item :: _)) => ret (Some (channel_id_of item))
  | Ok _ =>
      print ("No channel found with title: " ++ username) ;;; ret None
  | Raise e =>
      print ("Error occurred while fetching channel ID: " ++ e) ;;; ret None
  end.

Definition video_record (video_id : string) (item : video_item) : Video.t :=
  {| Video.video_id := video_id;
     Video.title := snippet_title item;
     Video.description := snippet_description item;
     Video.published_at := snippet_publishedAt item;
     Video.duration := contentDetails_duration item;
     Video.view_count := statistics_viewCount item;
     Video.like_count := statistics_likeCount item;
     Video.comment_count := statistics_commentCount item;
     Video.default_thumbnail := thumbnails_default_url item;
     Video.medium_thumbnail := thumbnails_medium_url item;
     Video.high_thumbnail := thumbnails_high_url item |}.

Definition get_video_details (video_id : string) : M (option Video.t) :=
  response <- execute (VideosList video_id) (videos_list youtube video_id) ;;
  match response with
  | Ok [] => ret None
  | Ok (item :: _) => ret (Some (video_record video_id item))
  | Raise e =>
      print ("Error occurred while fetching video details for "
             ++ video_id ++ ": " ++ e) ;;;
      ret None
  end.

(** The [for item in response['items']] loop of [get_videos_by_channel_id]. *)
Fixpoint collect_video_details (items : list search_item)
    (videos : list Video.t) : M (list Video.t) :=
  match items with
  | [] => ret videos
  | item :: items' =>
      video_details <- get_video_details (videoId item) ;;
      match video_details with
      | Some details => collect_video_details items' (videos ++ [details])
      | None => collect_video_details items' videos
      end
  end.

(** The [while True] loop of [get_videos_by_channel_id], from the state
    ([videos], [next_page_token]). *)
Fixpoint videos_loop (fuel : nat) (channel_id : string)
    (videos : list Video.t) (next_page_token : option string)
  : M (list Video.t) :=
  match fuel with
  | O => None
  | S fuel' =>
      response <- execute (SearchList channel_id next_page_token)
                          (search_list youtube channel_id next_page_token) ;;
      match response with
      | Ok page =>
          videos' <- collect_video_details (search_items page) videos ;;
          let next_page_token' := search_nextPageToken page in
          if Py.truthy next_page_token'
          then videos_loop fuel' channel_id videos' next_page_token'
          else ret videos'
      | Raise e =>
          print ("Error occurred while fetching videos: " ++ e) ;;;
          ret videos
      end
  end.

Definition get_videos_by_channel_id (fuel : nat) (channel_id : string)
  : M (list Video.t) :=
  videos_loop fuel channel_id [] None.

Definition opt_cell (o : option string) : cell :=
  match o with
  | Some s => CellStr s
  | None => CellNone
  end.

Definition video_headers : list cell :=
  map CellStr
    ["Video ID"; "Title"; "Description"; "Published At"; "Duration";
     "View Count"; "Like Count"; "Comment Count"; "Default Thumbnail";
     "Medium Thumbnail"; "High Thumbnail"].

Definition video_row (video : Video.t) : list cell :=
  [CellStr (Video.video_id video); CellStr (Video.title video);
   CellStr (Video.description video); CellStr (Video.published_at video);
   CellStr (Video.duration video); opt_cell (Video.view_count video);
   opt_cell (Video.like_count video); opt_cell (Video.comment_count video);
   CellStr (Video.default_thumbnail video);
   CellStr (Video.medium_thumbnail video);
   CellStr (Video.high_thumbnail video)].

(** [ws.append] on the rows in turn: the first one that raises ends the
    export. *)
Fixpoint append_rows (rows : list (list cell)) : result unit :=
  match rows with
  | [] => Ok tt
  | row :: rows' =>
      match ws_append openpyxl row with
      | Ok _ => append_rows rows'
      | Raise e => Raise e
      end
  end.

(** [Raise e] stands for an exception leaving the function: the workbook
    was not saved and the last line not printed. *)
Definition save_videos_to_excel (videos : list Video.t) (filename : string)
  : M (result unit) :=
  let rows := video_headers :: map video_row videos in
  match append_rows rows with
  | Raise e => ret (Raise e)
  | Ok _ =>
      match wb_save openpyxl filename "Videos" rows with
      | Raise e => ret (Raise e)
      | Ok _ =>
          emit (SaveWorkbook filename "Videos" rows) ;;;
          print ("Excel file saved successfully: " ++ filename) ;;;
          ret (Ok tt)
      end
  end.

Definition top_level_record (video_id : string) (item : thread_item)
  : Comment.t :=
  let comment := topLevelComment item in
  {| Comment.video_id := video_id;
     Comment.comment_id := thread_id item;
     Comment.comment_text := textDisplay comment;
     Comment.author_name := authorDisplayName comment;
     Comment.published_at := publishedAt comment;
     Comment.like_count := likeCount comment;
     Comment.reply_to := None |}.

Definition reply_record (video_id comment_id : string) (reply : reply_item)
  : Comment.t :=
  let snippet := reply_snippet reply in
  {| Comment.video_id := video_id;
     Comment.comment_id := reply_id reply;
     Comment.comment_text := textDisplay snippet;
     Comment.author_name := authorDisplayName snippet;
     Comment.published_at := publishedAt snippet;
     Comment.like_count := likeCount snippet;
     Comment.reply_to := Some comment_id |}.

(** What one thread appends: its top-level comment, then its replies. *)
Definition thread_records (video_id : string) (item : thread_item)
  : list Comment.t :=
  top_level_record video_id item ::
  match replies item with
  | Some rs => map (reply_record video_id (thread_id item)) rs
  | None => []
  end.

(** The [for item in response['items']] loop of
    [get_comments_by_video_id]. *)
Definition page_records (video_id : string) (items : list thread_item)
  : list Comment.t :=
  flat_map (thread_records video_id) items.

(** The [while comment_count < max_comments] loop, from the state
    ([comments], [next_page_token], [comment_count]). *)
Fixpoint comments_loop (fuel : nat) (video_id : string) (max_comments : Z)
    (comments : list Comment.t) (next_page_token : option string)
    (comment_count : Z) : M (list Comment.t) :=
  if (comment_count <? max_comments)%Z then
    match fuel with
    | O => None
    | S fuel' =>
        response <-
          execute (CommentThreadsList video_id next_page_token)
                  (commentThreads_list youtube video_id next_page_token) ;;
        match response with
        | Ok page =>
            let comments' :=
              comments ++ page_records video_id (thread_items page) in
            let comment_count' :=
              (comment_count + Z.of_nat (List.length (thread_items page)))%Z in
            let next_page_token' := thread_nextPageToken page in
            if Py.truthy next_page_token'
            then comments_loop fuel' video_id max_comments comments'
                               next_page_token' comment_count'
            else ret comments'
        | Raise e =>
            print ("Error occurred while fetching comments: " ++ e) ;;;
            ret comments
        end
    end
  else ret comments.

Definition get_comments_by_video_id (fuel : nat) (video_id : string)
    (max_comments : Z) : M (list Comment.t) :=
  comments_loop fuel video_id max_comments [] None 0%Z.

Definition comment_headers : list cell :=
  map CellStr
    ["Video ID"; "Comment ID"; "Comment Text"; "Author Name";
     "Published At"; "Like Count"; "Reply To"].

Definition comment_row (comment : Comment.t) : list cell :=
  [CellStr (Comment.video_id comment); CellStr (Comment.comment_id comment);
   CellStr (Comment.comment_text comment);
   CellStr (Comment.author_name comment);
   CellStr (Comment.published_at comment);
   CellInt (Comment.like_count comment);
   opt_cell (Comment.reply_to comment)].

Definition export_comments_to_excel (comments : list Comment.t)
    (filename : string) : M (result unit) :=
  let rows := comment_headers :: map comment_row comments in
  match append_rows rows with
  | Raise e => ret (Raise e)
  | Ok _ =>
      match wb_save openpyxl filename "Comments" rows with
      | Raise e => ret (Raise e)
      | Ok _ =>
          emit (SaveWorkbook filename "Comments" rows) ;;;
          print ("Excel file saved successfully: " ++ filename) ;;;
          ret (Ok tt)
      end
  end.

(** The [for video in videos] loop of [main], from the state
    [all_comments]. *)
Fixpoint collect_comments (fuel : nat) (videos : list Video.t)
    (max_comments : Z) (all_comments : list Comment.t)
  : M (list Comment.t) :=
  match videos with
  | [] => ret all_comments
  | video :: videos' =>
      if (Z.of_nat (List.length all_comments) >=? max_comments)%Z
      then ret all_comments
      else
        comments <-
          get_comments_by_video_id fuel (Video.video_id video)
            (max_comments - Z.of_nat (List.length all_comments))%Z ;;
        collect_comments fuel videos' max_comments (all_comments ++ comments)
  end.

(** The [return] statement through which [main] leaves, or the exception
    that leaves it uncaught. *)
Inductive exit :=
| InvalidCount
| InvalidURL
| NoChannel
| Completed
| Uncaught (e : string).

(** [main], with the two lines typed at its prompts as arguments. *)
Definition main (fuel : nat) (username_line count_line : string) : M exit :=
  emit (Input "Enter YouTube channel username: ") ;;;
  emit (Input "Enter the number of comments you want to fetch: ") ;;;
  match Py.int count_line with
  | None => print "Invalid value for comment count!" ;;; ret InvalidCount
  | Some max_comments =>
      match Py.last_item (Py.split "/" username_line) with
      | None =>
          print "Invalid URL. Please check & try again!" ;;; ret InvalidURL
      | Some username =>
          resolved <- get_channel_id_by_username username ;;
          match resolved with
          | None => ret NoChannel
          | Some channel_id =>
              if negb (Py.truthy resolved) then ret NoChannel
              else
                print ("Fetching videos for channel ID: " ++ channel_id) ;;;
                videos <- get_videos_by_channel_id fuel channel_id ;;
                saved <- save_videos_to_excel videos
                           ("videos_data_" ++ username ++ ".xlsx") ;;
                match saved with
                | Raise e => ret (Uncaught e)
                | Ok _ =>
                    all_comments <-
                      collect_comments fuel videos max_comments [] ;;
                    exported <-
                      export_comments_to_excel all_comments
                        ("comments_data_of_" ++ username ++ ".xlsx") ;;
                    match exported with
                    | Raise e => ret (Uncaught e)
                    | Ok _ => ret Completed
                    end
                end
          end
      end
  end.

End Script.

(** ** Vocabulary of the properties *)

(** ['/'.join(segs)], the inverse of [split]. *)
Fixpoint join (sep : ascii) (segs : list string) : string :=
  match segs with
  | [] => EmptyString
  | [seg] => seg
  | seg :: segs' => seg ++ String sep (join sep segs')
  end.

(** Whether character [c] occurs in [s]. *)
Fixpoint contains (c : ascii) (s : string) : bool :=
  match s with
  | EmptyString => false
  | String c' s' => Ascii.eqb c' c || contains c s'
  end.

Definition is_request (e : event) : bool :=
  match e with
  | Execute _ => true
  | _ => false
  end.

Definition is_save (e : event) : bool :=
  match e with
  | SaveWorkbook _ _ _ => true
  | _ => false
  end.

(** Handle resolution finds a channel: the response lists one. *)
Definition channel_found (youtube : api) (username : string) : bool :=
  match channels_list youtube username with
  | Ok (Some (_ :: _)) => true
  | _ => false
  end.

(** What [get_channel_id_by_username] prints when no channel is found. *)
Definition resolution_report (youtube : api) (username : string) : string :=
  match channels_list youtube username with
  | Raise e => "Error occurred while fetching channel ID: " ++ e
  | _ => "No channel found with title: " ++ username
  end.

Definition prompts : list event :=
  [Input "Enter YouTube channel username: ";
   Input "Enter the number of comments you want to fetch: "].

(** Every reply comes after the record it answers. *)
Definition well_threaded (comments : list Comment.t) : Prop :=
  forall i c,
    nth_error comments i = Some c ->
    Comment.reply_to c = None \/
    exists j parent,
      j < i /\ nth_error comments j = Some parent /\
      Comment.reply_to c = Some (Comment.comment_id parent).

(** What a detail lookup contributes to [videos]: one record when the
    response lists an item, nothing when it lists none or the call raised. *)
Definition found_record (youtube : api) (video_id : string) : list Video.t :=
  match videos_list youtube video_id with
  | Ok (item :: _) => [video_record video_id item]
  | _ => []
  end.

(** What a detail lookup logs. *)
Definition details_log (youtube : api) (video_id : string) : list event :=
  Execute (VideosList video_id) ::
  match videos_list youtube video_id with
  | Raise e =>
      [Print ("Error occurred while fetching video details for "
              ++ video_id ++ ": " ++ e)]
  | Ok _ => []
  end.

(** The records contributed by the detail lookups of a log. *)
Definition accumulated (youtube : api) (log : list event) : list Video.t :=
  flat_map (fun e =>
              match e with
              | Execute (VideosList video_id) => found_record youtube video_id
              | _ => []
              end) log.

(** The channel's listing is the finite chain [pages]: the request with
    cursor [token] is answered by the first page, each page but the last
    carries the cursor of the next, and the last carries none. *)
Fixpoint pages_served (youtube : api) (channel_id : string)
    (token : option string) (pages : list search_response) : Prop :=
  match pages with
  | [] => False
  | page :: rest =>
      search_list youtube channel_id token = Ok page /\
      match rest with
      | [] => Py.truthy (search_nextPageToken page) = false
      | _ :: _ =>
          Py.truthy (search_nextPageToken page) = true /\
          pages_served youtube channel_id (search_nextPageToken page) rest
      end
  end.

Definition listed_ids (pages : list search_response) : list string :=
  flat_map (fun page => map videoId (search_items page)) pages.

(** Number of threads in the response to a comment request of the log. *)
Definition threads_in (youtube : api) (e : event) : nat :=
  match e with
  | Execute (CommentThreadsList video_id token) =>
      match commentThreads_list youtube video_id token with
      | Ok page => List.length (thread_items page)
      | Raise _ => 0
      end
  | _ => 0
  end.

(** Threads processed by the requests of a log. *)
Definition threads_processed (youtube : api) (log : list event) : Z :=
  Z.of_nat (list_sum (map (threads_in youtube) log)).

(** The videos the [for] loop of [main] visits from a state with
    [collected] records: each is visited while fewer than [max_comments]
    records are held, its comments are fetched with what is left of the
    budget, and what that call returns and logs is the matching entry of
    [fetched]. *)
Fixpoint visited_with (youtube : api) (fuel : nat) (max_comments : Z)
    (collected : list Comment.t) (visited : list Video.t)
    (fetched : list (list Comment.t * list event)) : Prop :=
  match visited, fetched with
  | [], [] => True
  | video :: visited', (comments, log) :: fetched' =>
      (Z.of_nat (List.length collected) < max_comments)%Z /\
      get_comments_by_video_id youtube fuel (Video.video_id video)
        (max_comments - Z.of_nat (List.length collected))
      = Some (comments, log) /\
      visited_with youtube fuel max_comments (collected ++ comments)
        visited' fetched'
  | _, _ => False
  end.

(** What [save_videos_to_excel] and [export_comments_to_excel] log for the
    handle [username]. *)
Definition video_export (username : string) (videos : list Video.t)
  : list event :=
  [SaveWorkbook ("videos_data_" ++ username ++ ".xlsx") "Videos"
     (video_headers :: map video_row videos);
   Print ("Excel file saved successfully: "
          ++ "videos_data_" ++ username ++ ".xlsx")].

Definition comment_export (username : string) (comments : list Comment.t)
  : list event :=
  [SaveWorkbook ("comments_data_of_" ++ username ++ ".xlsx") "Comments"
     (comment_headers :: map comment_row comments);
   Print ("Excel file saved successfully: "
          ++ "comments_data_of_" ++ username ++ ".xlsx")].

(** The log of a run of [main] that resolves the handle [username] to
    [channel_id], lists the videos with log [listing] and collects
    [comments] with log [fetching]. *)
Definition completed_log (username channel_id : string)
    (videos : list Video.t) (listing : list event)
    (comments : list Comment.t) (fetching : list event) : list event :=
  prompts
  ++ [Execute (ChannelsList username);
      Print ("Fetching videos for channel ID: " ++ channel_id)]
  ++ listing ++ video_export username videos
  ++ fetching ++ comment_export username comments.

(** The comment records contributed by the answered requests of a log. *)
Definition comments_of_log (youtube : api) (log : list event)
  : list Comment.t :=
  flat_map (fun e =>
              match e with
              | Execute (CommentThreadsList video_id token) =>
                  match commentThreads_list youtube video_id token with
                  | Ok page => page_records video_id (thread_items page)
                  | Raise _ => []
                  end
              | _ => []
              end) log.

(** Number of replies carried by the threads of a list of items. *)
Definition replies_carried (items : list thread_item) : nat :=
  list_sum (map (fun item =>
                   match replies item with
                   | Some rs => List.length rs
                   | None => 0
                   end) items).

(** Replies in the response to a comment request of the log. *)
Definition replies_in (youtube : api) (e : event) : nat :=
  match e with
  | Execute (CommentThreadsList video_id token) =>
      match commentThreads_list youtube video_id token with
      | Ok page => replies_carried (thread_items page)
      | Raise _ => 0
      end
  | _ => 0
  end.

(** Cursors of the listing requests of a log, in order. *)
Definition listing_tokens (log : list event) : list (option string) :=
  flat_map (fun e =>
              match e with
              | Execute (SearchList _ token) => [token]
              | _ => []
              end) log.

(** Video ids of the detail requests of a log, in order. *)
Definition detail_requests (log : list event) : list string :=
  flat_map (fun e =>
              match e with
              | Execute (VideosList video_id) => [video_id]
              | _ => []
              end) log.

(** Video ids listed by the response to the listing request with cursor
    [token]. *)
Definition page_ids (youtube : api) (channel_id : string)
    (token : option string) : list string :=
  match search_list youtube channel_id token with
  | Ok page => map videoId (search_items page)
  | Raise _ => []
  end.

(** [tokens] are the cursors of a pagination started at [token]: each
    request but the last was answered with the cursor of the next, and the
    last one raised or was answered without cursor. *)
Fixpoint cursor_chain (youtube : api) (channel_id : string)
    (token : option string) (tokens : list (option string)) : Prop :=
  match tokens with
  | [] => False
  | first :: rest =>
      first = token /\
      match rest with
      | [] =>
          match search_list youtube channel_id token with
          | Ok page => Py.truthy (search_nextPageToken page) = false
          | Raise _ => True
          end
      | _ :: _ =>
          exists page,
            search_list youtube channel_id token = Ok page /\
            Py.truthy (search_nextPageToken page) = true /\
            cursor_chain youtube channel_id (search_nextPageToken page) rest
      end
  end.

(** Events a run of the video aggregator can log. *)
Definition listing_event (e : event) : bool :=
  match e with
  | Execute (SearchList _ _) | Execute (VideosList _) | Print _ => true
  | _ => false
  end.

(** Events a run of the comment aggregator can log. *)
Definition fetching_event (e : event) : bool :=
  match e with
  | Execute (CommentThreadsList _ _) | Print _ => true
  | _ => false
  end.

(** What exporting a sheet answers: the first row [ws.append] refuses
    raises, else [wb.save] decides. *)
Definition sheet_outcome (openpyxl : sheets) (filename title : string)
    (rows : list (list cell)) : result unit :=
  match append_rows openpyxl rows with
  | Raise e => Raise e
  | Ok _ => wb_save openpyxl filename title rows
  end.

(** The two sheets of a run for the handle [username]. *)
Definition video_sheet (openpyxl : sheets) (username : string)
    (videos : list Video.t) : result unit :=
  sheet_outcome openpyxl ("videos_data_" ++ username ++ ".xlsx") "Videos"
    (video_headers :: map video_row videos).

Definition comment_sheet (openpyxl : sheets) (username : string)
    (comments : list Comment.t) : result unit :=
  sheet_outcome openpyxl ("comments_data_of_" ++ username ++ ".xlsx")
    "Comments" (comment_headers :: map comment_row comments).

(** The log of a run of [main] up to the end of the video listing. *)
Definition listed_log (username channel_id : string)
    (listing : list event) : list event :=
  prompts
  ++ [Execute (ChannelsList username);
      Print ("Fetching videos for channel ID: " ++ channel_id)]
  ++ listing.

(** What exporting the sheet [rows] can leave behind.  Either every row
    was appended and the workbook saved, which logs the saved sheet and the
    success line; or an exception left the export, raised by the first row
    the library refuses or, every row appended, by the save, and nothing is
    logged. *)
Definition exported (openpyxl : sheets) (filename title : string)
    (rows : list (list cell)) (outcome : result unit) (log : list event)
  : Prop :=
  (outcome = Ok tt /\
   log = [SaveWorkbook filename title rows;
          Print ("Excel file saved successfully: " ++ filename)] /\
   Forall (fun row => ws_append openpyxl row = Ok tt) rows /\
   wb_save openpyxl filename title rows = Ok tt) \/
  (exists e,
      outcome = Raise e /\ log = [] /\
      ((exists before row after,
           rows = before ++ row :: after /\
           Forall (fun row => ws_append openpyxl row = Ok tt) before /\
           ws_append openpyxl row = Raise e) \/
       (Forall (fun row => ws_append openpyxl row = Ok tt) rows /\
        wb_save openpyxl filename title rows = Raise e))).

(** ** Sample services *)

Definition sample_video_item (name : string) : video_item :=
  {| snippet_title := "Title of " ++ name;
     snippet_description := "About " ++ name;
     snippet_publishedAt := "2024-05-01T10:00:00Z";
     contentDetails_duration := "PT4M13S";
     statistics_viewCount := Some "1200";
     statistics_likeCount := Some "45";
     statistics_commentCount := None;
     thumbnails_default_url := "https://i.ytimg.com/vi/" ++ name ++ "/default.jpg";
     thumbnails_medium_url := "https://i.ytimg.com/vi/" ++ name ++ "/mqdefault.jpg";
     thumbnails_high_url := "https://i.ytimg.com/vi/" ++ name ++ "/hqdefault.jpg" |}.

Definition sample_snippet (text : string) : comment_snippet :=
  {| textDisplay := text;
     authorDisplayName := "viewer";
     publishedAt := "2024-05-02T08:30:00Z";
     likeCount := 3 |}.

Definition plain_thread (id : string) : thread_item :=
  {| thread_id := id;
     topLevelComment := sample_snippet ("comment " ++ id);
     replies := None |}.

(** A channel [example] = [UC123] with three videos on one page, each with
    two top-level comments and no replies. *)
Definition demo_api : api :=
  {| channels_list := fun handle =>
       if String.eqb handle "example"
       then Ok (Some [{| channel_id_of := "UC123" |}])
       else Ok (Some []);
     search_list := fun _ _ =>
       Ok {| search_items :=
               [{| videoId := "v1" |}; {| videoId := "v2" |};
                {| videoId := "v3" |}];
             search_nextPageToken := None |};
     videos_list := fun id => Ok [sample_video_item id];
     commentThreads_list := fun video _ =>
       Ok {| thread_items :=
               [plain_thread (video ++ "-c1"); plain_thread (video ++ "-c2")];
             thread_nextPageToken := None |} |}.

(** A thread with two replies on a first page, two plain threads on a
    second page reached through the cursor ["p2"]. *)
Definition sample_reply (id : string) : reply_item :=
  {| reply_id := id; reply_snippet := sample_snippet ("reply " ++ id) |}.

Definition busy_thread : thread_item :=
  {| thread_id := "t1";
     topLevelComment := sample_snippet "first";
     replies := Some [sample_reply "t1.r1"; sample_reply "t1.r2"] |}.

Definition threaded_api : api :=
  {| channels_list := fun _ => Ok (Some [{| channel_id_of := "UC123" |}]);
     search_list := fun _ _ =>
       Ok {| search_items := [{| videoId := "v1" |}];
             search_nextPageToken := None |};
     videos_list := fun id => Ok [sample_video_item id];
     commentThreads_list := fun _ token =>
       match token with
       | None =>
           Ok {| thread_items := [busy_thread];
                 thread_nextPageToken := Some "p2" |}
       | Some _ =>
           Ok {| thread_items := [plain_thread "t2"; plain_thread "t3"];
                 thread_nextPageToken := None |}
       end |}.

(** A video whose only thread has two replies, on a single page. *)
Definition lone_thread_api : api :=
  {| channels_list := channels_list threaded_api;
     search_list := search_list threaded_api;
     videos_list := videos_list threaded_api;
     commentThreads_list := fun _ _ =>
       Ok {| thread_items := [busy_thread];
             thread_nextPageToken := None |} |}.

(** Two listing pages, videos [a] and [b] then video [c]. *)
Definition two_pages (token : option string) : search_response :=
  match token with
  | None =>
      {| search_items := [{| videoId := "a" |}; {| videoId := "b" |}];
         search_nextPageToken := Some "page2" |}
  | Some _ =>
      {| search_items := [{| videoId := "c" |}];
         search_nextPageToken := None |}
  end.

(** The detail lookup of video [a] raises. *)
Definition flaky_api : api :=
  {| channels_list := channels_list demo_api;
     search_list := fun _ token => Ok (two_pages token);
     videos_list := fun id =>
       if String.eqb id "a" then Raise "timed out"
       else Ok [sample_video_item id];
     commentThreads_list := commentThreads_list demo_api |}.

(** The detail lookup of video [a] raises, and so does the request for the
    second listing page. *)
Definition outage_api : api :=
  {| channels_list := channels_list demo_api;
     search_list := fun _ token =>
       match token with
       | None => Ok (two_pages None)
       | Some _ => Raise "quota exceeded"
       end;
     videos_list := videos_list flaky_api;
     commentThreads_list := commentThreads_list demo_api |}.

(** The detail lookup of video [b] lists no item. *)
Definition gap_api : api :=
  {| channels_list := channels_list demo_api;
     search_list := fun _ token => Ok (two_pages token);
     videos_list := fun id =>
       if String.eqb id "b" then Ok [] else Ok [sample_video_item id];
     commentThreads_list := commentThreads_list demo_api |}.

(** A channel whose resolved identifier is the empty string. *)
Definition blank_id_api : api :=
  {| channels_list := fun _ => Ok (Some [{| channel_id_of := EmptyString |}]);
     search_list := search_list demo_api;
     videos_list := videos_list demo_api;
     commentThreads_list := commentThreads_list demo_api |}.

(** A listing whose every page carries a cursor. *)
Definition endless_api : api :=
  {| channels_list := channels_list demo_api;
     search_list := fun _ _ =>
       Ok {| search_items := [{| videoId := "v1" |}];
             search_nextPageToken := Some "next" |};
     videos_list := videos_list demo_api;
     commentThreads_list := commentThreads_list demo_api |}.

(** Comment pages without any thread, each carrying a cursor. *)
Definition stalled_api : api :=
  {| channels_list := channels_list demo_api;
     search_list := search_list demo_api;
     videos_list := videos_list demo_api;
     commentThreads_list := fun _ _ =>
       Ok {| thread_items := []; thread_nextPageToken := Some "again" |} |}.

(** The request for the second comment page raises. *)
Definition comment_outage_api : api :=
  {| channels_list := channels_list demo_api;
     search_list := search_list demo_api;
     videos_list := videos_list demo_api;
     commentThreads_list := fun _ token =>
       match token with
       | None =>
           Ok {| thread_items := [busy_thread];
                 thread_nextPageToken := Some "p2" |}
       | Some _ => Raise "quota exceeded"
       end |}.

(** A library that accepts every row and every save. *)
Definition plain_sheets : sheets :=
  {| ws_append := fun _ => Ok tt;
     wb_save := fun _ _ _ => Ok tt |}.

(** A control character no worksheet string may hold. *)
Definition illegal_character (c : ascii) : bool :=
  let n := nat_of_ascii c in
  Nat.leb n 8 || Nat.eqb n 11 || Nat.eqb n 12
  || (Nat.leb 14 n && Nat.leb n 31).

Definition illegal_cell (c : cell) : bool :=
  match c with
  | CellStr s => existsb illegal_character (list_ascii_of_string s)
  | _ => false
  end.

(** A library that refuses a row holding a control character. *)
Definition strict_sheets : sheets :=
  {| ws_append := fun row =>
       if existsb illegal_cell row
       then Raise "IllegalCharacterError" else Ok tt;
     wb_save := fun _ _ _ => Ok tt |}.

(** A library whose save of the comment workbook fails. *)
Definition full_disk_sheets : sheets :=
  {| ws_append := fun _ => Ok tt;
     wb_save := fun _ title _ =>
       if String.eqb title "Comments"
       then Raise "OSError: No space left on device" else Ok tt |}.

(** A channel whose second video has a vertical tab in its title. *)
Definition tab_title : string := String (ascii_of_nat 11) "clip".

Definition tabbed_api : api :=
  {| channels_list := channels_list demo_api;
     search_list := search_list demo_api;
     videos_list := fun id =>
       if String.eqb id "v2"
       then Ok [{| snippet_title := tab_title;
                   snippet_description := "About v2";
                   snippet_publishedAt := "2024-05-01T10:00:00Z";
                   contentDetails_duration := "PT1M";
                   statistics_viewCount := None;
                   statistics_likeCount := None;
                   statistics_commentCount := None;
                   thumbnails_default_url := "d";
                   thumbnails_medium_url := "m";
                   thumbnails_high_url := "h" |}]
       else Ok [sample_video_item id];
     commentThreads_list := commentThreads_list demo_api |}.

(** * Properties *)

(** ** The logging monad *)

Lemma bind_Some {A B : Type} (m : M A) (k : A -> M B) b log :
  bind m k = Some (b, log) <->
  exists a log1 log2,
    m = Some (a, log1) /\ k a = Some (b, log2) /\ log = log1 ++ log2.
Proof.
  unfold bind. split.
  - destruct m as [[a log1]|]; [|discriminate].
    destruct (k a) as [[b' log2]|] eqn:Hk; [|discriminate].
    intros H. injection H as <- <-. now exists a, log1, log2.
  - intros (a & log1 & log2 & -> & Hk & ->). now rewrite Hk.
Qed.


Lemma bind_emit {B : Type} (e : event) (k : unit -> M B) :
  bind (emit e) k =
  match k tt with
  | Some (b, log) => Some (b, e :: log)
  | None => None
  end.
Proof. reflexivity. Qed.

Lemma bind_execute {A B : Type} (r : request) (response : result A)
    (k : result A -> M B) :
  bind (execute r response) k =
  match k response with
  | Some (b, log) => Some (b, Execute r :: log)
  | None => None
  end.
Proof. reflexivity. Qed.

(** ** The built-ins on sample inputs *)

Example split_url :
  Py.split "/" "https://www.youtube.com/@example"
  = ["https:"; EmptyString; "www.youtube.com"; "@example"].
Proof. reflexivity. Qed.

Example split_trailing_slash :
  Py.split "/" "@example/" = ["@example"; EmptyString].
Proof. reflexivity. Qed.

Example split_empty : Py.split "/" EmptyString = [EmptyString].
Proof. reflexivity. Qed.

Example int_control_characters :
  Py.int (String "5" (String (ascii_of_nat 31) EmptyString)) = None /\
  Py.int (String (ascii_of_nat 28) "5") = None /\
  Py.int (String (ascii_of_nat 12) "5") = Some 5%Z /\
  Py.int (String (ascii_of_nat 160) "5") = Some 5%Z.
Proof. repeat split. Qed.

Example int_digit_limit :
  Py.int (string_of_list_ascii (repeat "0"%char 4300)) = Some 0%Z /\
  Py.int (string_of_list_ascii (repeat "0"%char 4301)) = None /\
  Py.int (string_of_list_ascii ("-"%char :: repeat "1"%char 4301)) = None.
Proof. repeat split; vm_compute; reflexivity. Qed.

Example int_samples :
  Py.int "25" = Some 25%Z /\ Py.int " +1_000 " = Some 1000%Z /\
  Py.int "-5" = Some (-5)%Z /\ Py.int "007" = Some 7%Z /\
  Py.int EmptyString = None /\ Py.int "ten" = None /\ Py.int "2.5" = None /\
  Py.int "- 5" = None /\ Py.int "1__0" = None /\ Py.int "_1" = None.
Proof. repeat split. Qed.

(** ** Handle normalization: [username.split('/')[-1]] *)

Lemma append_assoc (a b c : string) :
  ((a ++ b) ++ c = a ++ (b ++ c))%string.
Proof. induction a as [|x a IH]; simpl; [reflexivity | now rewrite IH]. Qed.

Lemma split_nonempty (sep : ascii) (s : string) : Py.split sep s <> [].
Proof.
  destruct s as [|c s]; simpl; [discriminate|].
  destruct (Ascii.eqb c sep); [discriminate|].
  destruct (Py.split sep s); discriminate.
Qed.

Lemma join_split (sep : ascii) (s : string) : join sep (Py.split sep s) = s.
Proof.
  induction s as [|c s IH]; simpl; [reflexivity|].
  destruct (Ascii.eqb_spec c sep) as [->|Hc].
  - pose proof (split_nonempty sep s) as Hne.
    destruct (Py.split sep s) as [|seg segs]; [contradiction|].
    cbn [join]. cbn [append]. now rewrite <- IH.
  - destruct (Py.split sep s) as [|seg segs] eqn:Hs.
    + now destruct (split_nonempty sep s).
    + rewrite <- IH. destruct segs; reflexivity.
Qed.

Lemma split_segments_clean (sep : ascii) (s : string) :
  Forall (fun seg => contains sep seg = false) (Py.split sep s).
Proof.
  induction s as [|c s IH]; simpl.
  - constructor; [reflexivity | constructor].
  - destruct (Ascii.eqb_spec c sep) as [->|Hc].
    + constructor; [reflexivity | assumption].
    + destruct (Py.split sep s) as [|seg segs]; simpl.
      * constructor; [|constructor]. simpl.
        apply Ascii.eqb_neq in Hc. now rewrite Hc.
      * inversion IH as [|? ? Hseg Hrest]; subst.
        constructor; [|assumption]. simpl.
        apply Ascii.eqb_neq in Hc. now rewrite Hc.
Qed.

Lemma last_item_snoc {A : Type} (xs : list A) (x : A) :
  Py.last_item (xs ++ [x]) = Some x.
Proof.
  induction xs as [|y xs IH]; [reflexivity|].
  simpl. destruct (xs ++ [x]) eqn:E; [now destruct xs | exact IH].
Qed.

Lemma join_snoc (sep : ascii) (segs : list string) (seg0 u : string) :
  join sep ((seg0 :: segs) ++ [u]) =
  ((join sep (seg0 :: segs) ++ String sep EmptyString) ++ u)%string.
Proof.
  revert seg0. induction segs as [|seg segs IH]; intros seg0.
  - simpl. now rewrite append_assoc.
  - change (join sep ((seg0 :: seg :: segs) ++ [u]))
      with (seg0 ++ String sep (join sep ((seg :: segs) ++ [u])))%string.
    rewrite IH.
    change (join sep (seg0 :: seg :: segs))
      with (seg0 ++ String sep (join sep (seg :: segs)))%string.
    now rewrite !append_assoc.
Qed.

(** The last element of the split is the text after the last separator. *)
Lemma last_segment (sep : ascii) (s : string) :
  exists u,
    Py.last_item (Py.split sep s) = Some u /\
    contains sep u = false /\
    exists pre,
      s = (pre ++ u)%string /\
      (pre = EmptyString \/
       exists pre', pre = (pre' ++ String sep EmptyString)%string).
Proof.
  pose proof (split_nonempty sep s) as Hne.
  pose proof (join_split sep s) as Hjoin.
  pose proof (split_segments_clean sep s) as Hclean.
  destruct (exists_last Hne) as (segs & u & Hsplit).
  rewrite Hsplit in *. exists u. split; [apply last_item_snoc|]. split.
  - rewrite Forall_forall in Hclean. apply Hclean, in_or_app. right. now left.
  - destruct segs as [|seg0 segs].
    + exists EmptyString. simpl in Hjoin. split; [now rewrite Hjoin | now left].
    + rewrite join_snoc in Hjoin. eexists. split; [symmetry; exact Hjoin|].
      right. eexists. reflexivity.
Qed.

(** ** The orchestrator's exits *)

Lemma get_channel_id_by_username_log (youtube : api) (username : string) :
  exists resolved rest,
    get_channel_id_by_username youtube username =
    Some (resolved, Execute (ChannelsList username) :: rest).
Proof.
  unfold get_channel_id_by_username. rewrite bind_execute.
  destruct (channels_list youtube username) as [[[|item items]|]|e];
    simpl; eauto.
Qed.

Lemma get_channel_id_by_username_fails (youtube : api) (username : string) :
  channel_found youtube username = false ->
  get_channel_id_by_username youtube username =
  Some (None, [Execute (ChannelsList username);
               Print (resolution_report youtube username)]).
Proof.
  unfold channel_found, resolution_report, get_channel_id_by_username.
  rewrite bind_execute.
  destruct (channels_list youtube username) as [[[|item items]|]|e];
    simpl; intros H; try discriminate; reflexivity.
Qed.

(** A run of [main] whose handle does not resolve. *)
Lemma main_unresolved (youtube : api) (openpyxl : sheets) (fuel : nat)
    (username_line count_line : string) (max_comments : Z)
    (username : string) :
  Py.int count_line = Some max_comments ->
  Py.last_item (Py.split "/" username_line) = Some username ->
  channel_found youtube username = false ->
  main youtube openpyxl fuel username_line count_line =
  Some (NoChannel,
        prompts ++ [Execute (ChannelsList username);
                    Print (resolution_report youtube username)]).
Proof.
  intros Hint Hu Hfail.
  unfold main. rewrite !bind_emit, Hint, Hu.
  unfold bind. rewrite (get_channel_id_by_username_fails _ _ Hfail).
  reflexivity.
Qed.

Lemma run_log_eq {A : Type} (a b : A) (log log' : list event) :
  Some (a, log) = Some (b, log') -> log = log'.
Proof. intros H. now injection H. Qed.

Lemma bind_exit {A : Type} (P : exit -> Prop) (m : M A) (k : A -> M exit)
    (e : exit) (log : list event) :
  (forall a e' log', k a = Some (e', log') -> P e') ->
  bind m k = Some (e, log) -> P e.
Proof.
  intros Hk H. apply bind_Some in H.
  destruct H as (a & log1 & log2 & _ & Ha & _). exact (Hk _ _ _ Ha).
Qed.

(** Every way [main] can return. *)
Lemma main_inv (youtube : api) (openpyxl : sheets) (fuel : nat)
    (username_line count_line : string) (e : exit) (log : list event) :
  main youtube openpyxl fuel username_line count_line = Some (e, log) ->
  (Py.int count_line = None /\ e = InvalidCount /\
   log = prompts ++ [Print "Invalid value for comment count!"]) \/
  (exists max_comments username rest,
     Py.int count_line = Some max_comments /\
     Py.last_item (Py.split "/" username_line) = Some username /\
     log = prompts ++ Execute (ChannelsList username) :: rest /\
     e <> InvalidCount /\ e <> InvalidURL).
Proof.
  unfold main. rewrite !bind_emit.
  destruct (Py.int count_line) as [max_comments|].
  - destruct (last_segment "/" username_line) as (username & Hlast & _).
    rewrite Hlast. intros H. right. exists max_comments, username.
    destruct (get_channel_id_by_username_log youtube username)
      as (resolved & rest & Hres).
    match type of H with
    | match match ?m with _ => _ end with _ => _ end = _ =>
        destruct m as [[e' log']|] eqn:Hm; [|discriminate]
    end.
    injection H as <- <-.
    apply bind_Some in Hm. destruct Hm as (r & l1 & l2 & Hr & Hk & ->).
    rewrite Hres in Hr. injection Hr as <- <-.
    exists (rest ++ l2).
    split; [reflexivity|]. split; [reflexivity|]. split; [reflexivity|].
    revert Hk. generalize l2. generalize e'.
    assert (Hret : forall x,
               x <> InvalidCount -> x <> InvalidURL ->
               forall e0 l0,
                 ret x = Some (e0, l0) ->
                 e0 <> InvalidCount /\ e0 <> InvalidURL).
    { intros x H1 H2 e0 l0 H0. now injection H0 as <- _. }
    intros e0 l0.
    destruct resolved as [channel_id|]; [|apply Hret; discriminate].
    destruct (negb (Py.truthy (Some channel_id)));
      [apply Hret; discriminate|].
    pose (P := fun x : exit => x <> InvalidCount /\ x <> InvalidURL).
    apply (bind_exit P). intros _ e1 l1.
    apply (bind_exit P). intros videos e2 l2'.
    apply (bind_exit P).
    intros [saved|x] e3 l3; [|apply Hret; discriminate].
    apply (bind_exit P). intros comments e4 l4.
    apply (bind_exit P).
    intros [exported|x] e5 l5; apply Hret; discriminate.
  - simpl. intros H. injection H as <- <-. now left.
Qed.

(** C10: handle normalization is total.  Splitting any input line on ['/']
    gives a non-empty list, so taking its last element never raises
    [IndexError], and no run of [main] leaves through the "Invalid URL"
    return. *)
Theorem normalization_total :
  forall (youtube : api) (openpyxl : sheets) (fuel : nat)
         (username_line count_line : string),
    Py.split "/" username_line <> [] /\
    (exists username,
        Py.last_item (Py.split "/" username_line) = Some username) /\
    (forall log,
        main youtube openpyxl fuel username_line count_line
        <> Some (InvalidURL, log)).
Proof.
  intros youtube openpyxl fuel username_line count_line. split; [|split].
  - apply split_nonempty.
  - destruct (last_segment "/" username_line) as (u & Hu & _). now exists u.
  - intros log H. apply main_inv in H.
    destruct H as [(_ & He & _) | (? & ? & ? & _ & _ & _ & _ & He)];
      [discriminate | now apply He].
Qed.

(** C6 as stated fails: the last segment of ["@example/"] is the empty
    string after the final slash, not ["example"]. *)
Lemma normalization_trailing_slash :
  Py.last_item (Py.split "/" "@example/") = Some EmptyString /\
  ~ Py.last_item (Py.split "/" "@example/") = Some "example" /\
  exists rest,
    main demo_api plain_sheets 1 "@example/" "4" =
    Some (NoChannel, prompts ++ Execute (ChannelsList EmptyString) :: rest).
Proof.
  split; [reflexivity|]. split; [discriminate|].
  eexists. vm_compute. reflexivity.
Qed.

(** C6, amended: the handle passed to resolution is the text after the
    last ['/'] of the input line (the whole line when it has none): it
    holds no ['/'], the line ends with it, and what precedes it is empty or
    ends with ['/'].  A leading ['@'] is kept and a trailing ['/'] leaves
    the empty handle: ["@example/"] gives the empty string and
    ["https://www.youtube.com/@example"] gives ["@example"]. *)
Theorem normalization_last_segment :
  forall (youtube : api) (openpyxl : sheets) (fuel : nat)
         (username_line count_line : string)
         (max_comments : Z),
    Py.int count_line = Some max_comments ->
    (exists username,
        Py.last_item (Py.split "/" username_line) = Some username /\
        contains "/" username = false /\
        (exists pre,
            username_line = (pre ++ username)%string /\
            (pre = EmptyString \/ exists pre', pre = (pre' ++ "/")%string)) /\
        (forall e log,
            main youtube openpyxl fuel username_line count_line
            = Some (e, log) ->
            exists rest,
              log = prompts ++ Execute (ChannelsList username) :: rest)) /\
    Py.last_item (Py.split "/" "@example/") = Some EmptyString /\
    Py.last_item (Py.split "/" "https://www.youtube.com/@example")
    = Some "@example".
Proof.
  intros youtube openpyxl fuel username_line count_line max_comments Hint.
  split; [|split; reflexivity].
  destruct (last_segment "/" username_line) as (u & Hu & Hclean & Hpre).
  exists u. repeat split; try assumption.
  intros e log H. apply main_inv in H.
  destruct H as [(Hnone & _) | (n & u' & rest & _ & Hu' & -> & _)].
  - congruence.
  - rewrite Hu in Hu'. injection Hu' as <-. now exists rest.
Qed.

Lemma normalization_last_segment_witness :
  exists username,
    Py.last_item (Py.split "/" "youtube.com/example") = Some username /\
    contains "/" username = false.
Proof.
  destruct (normalization_last_segment demo_api plain_sheets 1
              "youtube.com/example" "4" 4
              eq_refl) as ((u & Hu & Hclean & _) & _).
  exists u. split; assumption.
Defined.

(** C7 as stated fails on negative integers: [int("-5")] is [-5], no
    [ValueError] is raised, and the run resolves the channel, lists its
    videos and saves both workbooks. *)
Lemma negative_count_runs :
  Py.int "-5" = Some (-5)%Z /\
  exists log,
    main demo_api plain_sheets 1 "example" "-5" = Some (Completed, log) /\
    existsb is_request log = true /\
    List.length (filter is_save log) = 2.
Proof.
  split; [reflexivity|]. eexists. split; [vm_compute; reflexivity|].
  split; reflexivity.
Qed.

(** C7, amended: the run aborts exactly when [int()] rejects the
    comment-count line.  It then has shown its two prompts and printed one
    line: no request was executed and no workbook saved.  A line [int()]
    accepts, a negative integer included, never takes that exit: the run
    goes on to the resolution request. *)
Theorem invalid_count_aborts :
  forall (youtube : api) (openpyxl : sheets) (fuel : nat)
         (username_line count_line : string),
    (Py.int count_line = None ->
     main youtube openpyxl fuel username_line count_line =
     Some (InvalidCount,
           prompts ++ [Print "Invalid value for comment count!"])) /\
    (forall max_comments,
        Py.int count_line = Some max_comments ->
        forall e log,
          main youtube openpyxl fuel username_line count_line = Some (e, log) ->
          e <> InvalidCount /\
          exists username rest,
            log = prompts ++ Execute (ChannelsList username) :: rest).
Proof.
  intros youtube openpyxl fuel username_line count_line. split.
  - intros Hint. unfold main. rewrite !bind_emit, Hint. reflexivity.
  - intros n Hint e log H. apply main_inv in H.
    destruct H as [(Hnone & _) | (n' & u & rest & _ & _ & -> & He)].
    + congruence.
    + split; [apply He | now exists u, rest].
Qed.

Lemma invalid_count_aborts_witness :
  main demo_api plain_sheets 1 "example" "ten" =
  Some (InvalidCount, prompts ++ [Print "Invalid value for comment count!"]).
Proof.
  apply (proj1 (invalid_count_aborts demo_api plain_sheets 1 "example" "ten")).
  reflexivity.
Defined.

(** C9: when resolution fails, because the response lists no channel or
    because the call raised, [main] prints the report and returns at once:
    its whole log is the two prompts, the resolution request and the report,
    so neither workbook is saved. *)
Theorem resolution_failure_aborts :
  forall (youtube : api) (openpyxl : sheets) (fuel : nat)
         (username_line count_line : string)
         (max_comments : Z) (username : string),
    Py.int count_line = Some max_comments ->
    Py.last_item (Py.split "/" username_line) = Some username ->
    channel_found youtube username = false ->
    main youtube openpyxl fuel username_line count_line =
    Some (NoChannel,
          prompts ++ [Execute (ChannelsList username);
                      Print (resolution_report youtube username)]) /\
    existsb is_save
      (prompts ++ [Execute (ChannelsList username);
                   Print (resolution_report youtube username)]) = false.
Proof.
  intros youtube openpyxl fuel username_line count_line n u Hint Hu Hfail.
  split; [|reflexivity].
  now apply main_unresolved with (max_comments := n).
Qed.

Lemma resolution_failure_aborts_witness :
  main demo_api plain_sheets 1 "@example/" "4" =
  Some (NoChannel,
        prompts ++ [Execute (ChannelsList EmptyString);
                    Print "No channel found with title: "]).
Proof.
  apply (resolution_failure_aborts demo_api plain_sheets 1 "@example/" "4" 4
           EmptyString);
    reflexivity.
Defined.

(** C3: with [max_comments = 0] the loop condition fails at once: the
    result is the empty list and the log is empty, so no request was
    executed, whatever the video, the service and the fuel. *)
Theorem zero_budget_no_request :
  forall (youtube : api) (fuel : nat) (video_id : string),
    get_comments_by_video_id youtube fuel video_id 0 = Some ([], []).
Proof.
  intros youtube fuel video_id. destruct fuel; reflexivity.
Qed.

(** ** Order of the records of a thread *)

Lemma well_threaded_nil : well_threaded [].
Proof. intros [|i] c H; discriminate. Qed.

Lemma well_threaded_app (xs ys : list Comment.t) :
  well_threaded xs -> well_threaded ys -> well_threaded (xs ++ ys).
Proof.
  intros Hxs Hys i c Hi.
  destruct (Nat.lt_ge_cases i (List.length xs)) as [Hlt|Hge].
  - rewrite nth_error_app1 in Hi by assumption.
    destruct (Hxs i c Hi) as [Hnone | (j & parent & Hj & Hp & Hr)];
      [now left|].
    right. exists j, parent. repeat split; try assumption.
    rewrite nth_error_app1; [assumption | lia].
  - rewrite nth_error_app2 in Hi by assumption.
    destruct (Hys _ c Hi) as [Hnone | (j & parent & Hj & Hp & Hr)];
      [now left|].
    right. exists (List.length xs + j), parent. repeat split.
    + lia.
    + rewrite nth_error_app2 by lia.
      now replace (List.length xs + j - List.length xs) with j by lia.
    + assumption.
Qed.

Lemma well_threaded_thread (video_id : string) (item : thread_item) :
  well_threaded (thread_records video_id item).
Proof.
  intros i c Hi. unfold thread_records in Hi.
  destruct i as [|i]; simpl in Hi.
  - injection Hi as <-. now left.
  - right. exists 0, (top_level_record video_id item).
    split; [lia|]. split; [reflexivity|].
    destruct (replies item) as [rs|]; [|now destruct i].
    apply nth_error_In, in_map_iff in Hi.
    destruct Hi as (reply & <- & _). reflexivity.
Qed.

Lemma well_threaded_page (video_id : string) (items : list thread_item) :
  well_threaded (page_records video_id items).
Proof.
  induction items as [|item items IH].
  - apply well_threaded_nil.
  - change (page_records video_id (item :: items))
      with (thread_records video_id item ++ page_records video_id items).
    apply well_threaded_app; [apply well_threaded_thread | exact IH].
Qed.

Lemma comments_loop_well_threaded (youtube : api) (fuel : nat)
    (video_id : string) (max_comments : Z) :
  forall comments token count result log,
    well_threaded comments ->
    comments_loop youtube fuel video_id max_comments comments token count
    = Some (result, log) ->
    well_threaded result.
Proof.
  induction fuel as [|fuel IH]; intros comments token count result log Hwt;
    cbn [comments_loop]; destruct (count <? max_comments)%Z;
    try discriminate; try (intros H; injection H as <- _; assumption).
  rewrite bind_execute.
  destruct (commentThreads_list youtube video_id token) as [page|e].
  - destruct (Py.truthy (thread_nextPageToken page)).
    + destruct (comments_loop _ _ _ _ _ _ _) as [[r l]|] eqn:Hloop;
        [|discriminate].
      intros H. injection H as <- _.
      eapply IH; [|exact Hloop].
      apply well_threaded_app; [assumption | apply well_threaded_page].
    + intros H. injection H as <- _.
      apply well_threaded_app; [assumption | apply well_threaded_page].
  - simpl. intros H. injection H as <- _. assumption.
Qed.

(** C4: in every list the comment aggregator returns, each record either
    has no [reply_to] or its [reply_to] is the [comment_id] of a record at a
    strictly smaller index.  When the first page holds one thread with two
    replies and no cursor, a call with [max_comments = 10] returns exactly
    the top-level record, then the two replies in the order received, the
    first without [reply_to] and the two others pointing at the first. *)
Theorem replies_follow_their_thread :
  forall (youtube : api) (video_id : string),
    (forall fuel max_comments comments log,
        get_comments_by_video_id youtube fuel video_id max_comments
        = Some (comments, log) ->
        well_threaded comments) /\
    (forall fuel page thread reply1 reply2,
        commentThreads_list youtube video_id None = Ok page ->
        thread_items page = [thread] ->
        replies thread = Some [reply1; reply2] ->
        Py.truthy (thread_nextPageToken page) = false ->
        let top := top_level_record video_id thread in
        let r1 := reply_record video_id (thread_id thread) reply1 in
        let r2 := reply_record video_id (thread_id thread) reply2 in
        get_comments_by_video_id youtube (S fuel) video_id 10
        = Some ([top; r1; r2], [Execute (CommentThreadsList video_id None)])
        /\ Comment.reply_to top = None
        /\ Comment.reply_to r1 = Some (Comment.comment_id top)
        /\ Comment.reply_to r2 = Some (Comment.comment_id top)).
Proof.
  intros youtube video_id. split.
  - intros fuel max_comments comments log H.
    eapply comments_loop_well_threaded; [apply well_threaded_nil | exact H].
  - intros fuel page thread reply1 reply2 Hpage Hitems Hreplies Hlast.
    cbv zeta. repeat split.
    unfold get_comments_by_video_id. cbn [comments_loop Z.ltb Z.compare].
    rewrite bind_execute, Hpage, Hlast, Hitems. simpl.
    unfold thread_records. rewrite Hreplies. reflexivity.
Qed.

Lemma replies_follow_their_thread_witness :
  well_threaded
    [top_level_record "v1" busy_thread;
     reply_record "v1" "t1" (sample_reply "t1.r1");
     reply_record "v1" "t1" (sample_reply "t1.r2");
     top_level_record "v1" (plain_thread "t2");
     top_level_record "v1" (plain_thread "t3")] /\
  get_comments_by_video_id lone_thread_api 1 "v1" 10
  = Some ([top_level_record "v1" busy_thread;
           reply_record "v1" "t1" (sample_reply "t1.r1");
           reply_record "v1" "t1" (sample_reply "t1.r2")],
          [Execute (CommentThreadsList "v1" None)]).
Proof.
  split.
  - apply (proj1 (replies_follow_their_thread threaded_api "v1") 2 10%Z _
             [Execute (CommentThreadsList "v1" None);
              Execute (CommentThreadsList "v1" (Some "p2"))]).
    reflexivity.
  - apply (proj2 (replies_follow_their_thread lone_thread_api "v1") 0
             {| thread_items := [busy_thread]; thread_nextPageToken := None |}
             busy_thread (sample_reply "t1.r1") (sample_reply "t1.r2"));
      reflexivity.
Defined.

(** ** The video aggregator *)

Lemma get_video_details_eq (youtube : api) (video_id : string) :
  get_video_details youtube video_id =
  Some (hd_error (found_record youtube video_id),
        details_log youtube video_id).
Proof.
  unfold get_video_details, found_record, details_log.
  rewrite bind_execute.
  destruct (videos_list youtube video_id) as [[|item items]|e]; reflexivity.
Qed.

Lemma collect_video_details_eq (youtube : api) (items : list search_item) :
  forall videos,
    collect_video_details youtube items videos =
    Some (videos ++ flat_map (found_record youtube) (map videoId items),
          flat_map (details_log youtube) (map videoId items)).
Proof.
  induction items as [|item items IH]; intros videos.
  - simpl. now rewrite app_nil_r.
  - cbn [collect_video_details map flat_map].
    rewrite get_video_details_eq. unfold bind.
    destruct (found_record youtube (videoId item)) as [|details others] eqn:E;
      cbn [hd_error]; rewrite IH.
    + reflexivity.
    + unfold found_record in E.
      destruct (videos_list youtube (videoId item)) as [[|it its]|e];
        try discriminate.
      injection E as <- <-. now rewrite <- app_assoc.
Qed.

Lemma accumulated_app (youtube : api) (log1 log2 : list event) :
  accumulated youtube (log1 ++ log2) =
  accumulated youtube log1 ++ accumulated youtube log2.
Proof. apply flat_map_app. Qed.

Lemma accumulated_details (youtube : api) (ids : list string) :
  accumulated youtube (flat_map (details_log youtube) ids) =
  flat_map (found_record youtube) ids.
Proof.
  induction ids as [|id ids IH]; [reflexivity|].
  cbn [flat_map]. rewrite accumulated_app, IH. f_equal.
  unfold details_log, accumulated.
  destruct (videos_list youtube id) as [items|e]; simpl;
    now rewrite app_nil_r.
Qed.

Lemma details_log_no_listing (youtube : api) (ids : list string)
    (channel_id : string) (token : option string) :
  ~ In (Execute (SearchList channel_id token))
       (flat_map (details_log youtube) ids).
Proof.
  intros Hin. apply in_flat_map in Hin. destruct Hin as (id & _ & Hin).
  unfold details_log in Hin. destruct Hin as [Heq|Hin]; [discriminate|].
  destruct (videos_list youtube id); simpl in Hin;
    [contradiction | destruct Hin as [Heq|[]]; discriminate].
Qed.

Lemma split_skip {A : Type} (l1 l2 before after : list A) (x : A) :
  l1 ++ l2 = before ++ x :: after ->
  ~ In x l1 ->
  exists before', before = l1 ++ before' /\ l2 = before' ++ x :: after.
Proof.
  revert before. induction l1 as [|y l1 IH]; intros before Heq Hnot.
  - now exists before.
  - destruct before as [|b before]; simpl in Heq.
    + injection Heq as -> _. exfalso. apply Hnot. now left.
    + injection Heq as -> Heq.
      destruct (IH before Heq) as (before' & -> & ->).
      * intros Hin. apply Hnot. now right.
      * now exists before'.
Qed.

(** One iteration of the [while True] loop, by the outcome of its listing
    request. *)
Lemma videos_loop_step (youtube : api) (fuel : nat) (channel_id : string)
    (videos : list Video.t) (token : option string) :
  videos_loop youtube (S fuel) channel_id videos token =
  match search_list youtube channel_id token with
  | Raise e =>
      Some (videos,
            [Execute (SearchList channel_id token);
             Print ("Error occurred while fetching videos: " ++ e)])
  | Ok page =>
      let ids := map videoId (search_items page) in
      let videos' := videos ++ flat_map (found_record youtube) ids in
      let log := Execute (SearchList channel_id token)
                 :: flat_map (details_log youtube) ids in
      if Py.truthy (search_nextPageToken page)
      then match videos_loop youtube fuel channel_id videos'
                   (search_nextPageToken page) with
           | Some (result, rest) => Some (result, log ++ rest)
           | None => None
           end
      else Some (videos', log)
  end.
Proof.
  cbn [videos_loop]. rewrite bind_execute.
  destruct (search_list youtube channel_id token) as [page|e];
    [|reflexivity].
  unfold bind. rewrite collect_video_details_eq. cbv zeta.
  destruct (Py.truthy (search_nextPageToken page)).
  - destruct (videos_loop _ _ _ _ _) as [[result rest]|]; reflexivity.
  - cbn. now rewrite app_nil_r.
Qed.

Lemma videos_loop_log (youtube : api) (channel_id : string) (fuel : nat) :
  forall videos token result log,
    videos_loop youtube fuel channel_id videos token = Some (result, log) ->
    result = videos ++ accumulated youtube log /\
    forall before token' e after,
      log = before ++ Execute (SearchList channel_id token') :: after ->
      search_list youtube channel_id token' = Raise e ->
      after = [Print ("Error occurred while fetching videos: " ++ e)].
Proof.
  induction fuel as [|fuel IH]; intros videos token result log;
    [discriminate|].
  rewrite videos_loop_step.
  destruct (search_list youtube channel_id token) as [page|e0] eqn:Hpage.
  - cbv zeta.
    set (ids := map videoId (search_items page)).
    assert (Hsplit : forall rest before token' e after,
               Execute (SearchList channel_id token)
               :: flat_map (details_log youtube) ids ++ rest
               = before ++ Execute (SearchList channel_id token') :: after ->
               search_list youtube channel_id token' = Raise e ->
               exists before',
                 rest = before' ++ Execute (SearchList channel_id token')
                                :: after).
    { intros rest before token' e after Heq Hraise.
      destruct before as [|b before]; simpl in Heq.
      - injection Heq as <- _. congruence.
      - injection Heq as _ Heq. apply split_skip in Heq.
        + destruct Heq as (before' & _ & ->). now exists before'.
        + apply details_log_no_listing. }
    destruct (Py.truthy (search_nextPageToken page)).
    + destruct (videos_loop _ _ _ _ _) as [[r rest]|] eqn:Hloop;
        [|discriminate].
      intros H. injection H as <- <-.
      destruct (IH _ _ _ _ Hloop) as (-> & Hrest). split.
      * change (accumulated youtube
                  (Execute (SearchList channel_id token)
                   :: flat_map (details_log youtube) ids ++ rest))
          with (accumulated youtube
                  (flat_map (details_log youtube) ids ++ rest)).
        now rewrite accumulated_app, accumulated_details, app_assoc.
      * intros before token' e after Heq Hraise.
        destruct (Hsplit _ _ _ _ _ Heq Hraise) as (before' & Hrest').
        eapply Hrest; eassumption.
    + intros H. injection H as <- <-. split.
      * change (accumulated youtube (Execute (SearchList channel_id token)
                                     :: flat_map (details_log youtube) ids))
          with (accumulated youtube (flat_map (details_log youtube) ids)).
        now rewrite accumulated_details.
      * intros before token' e after Heq Hraise.
        rewrite <- (app_nil_r (flat_map _ _)) in Heq.
        destruct (Hsplit _ _ _ _ _ Heq Hraise) as (before' & Hrest').
        now destruct before'.
  - intros H. injection H as <- <-. split.
    + now rewrite app_nil_r.
    + intros before token' e after Heq Hraise.
      destruct before as [|b1 [|b2 before]]; simpl in Heq.
      * injection Heq as Htok Hafter. subst token' after.
        rewrite Hpage in Hraise. now injection Hraise as ->.
      * injection Heq as _ Heq. discriminate.
      * injection Heq as _ _ Heq. now destruct before.
Qed.

(** C5 as stated fails for detail calls: the lookup of video [a] raises,
    yet the loop goes on to look up [b], requests the second page and
    returns the records of [b] and [c], none of which had been accumulated
    before the failing call. *)
Lemma detail_error_does_not_stop :
  exists videos before after,
    get_videos_by_channel_id flaky_api 2 "UC123" =
    Some (videos, before ++ Execute (VideosList "a") :: after) /\
    videos_list flaky_api "a" = Raise "timed out" /\
    videos <> accumulated flaky_api before /\
    existsb is_request after = true /\
    videos = [video_record "b" (sample_video_item "b");
              video_record "c" (sample_video_item "c")].
Proof.
  exists [video_record "b" (sample_video_item "b");
          video_record "c" (sample_video_item "c")],
         [Execute (SearchList "UC123" None)],
         [Print "Error occurred while fetching video details for a: timed out";
          Execute (VideosList "b");
          Execute (SearchList "UC123" (Some "page2"));
          Execute (VideosList "c")].
  repeat split; discriminate.
Qed.

(** C5, amended: a listing call that raises ends the pagination loop: the
    error is printed and the aggregator returns exactly the records it held
    before that call.  A detail call that raises is caught inside
    [get_video_details], which prints the error and answers [None]: the
    video is skipped like one that was not found and the loop goes on with
    the next item.  The aggregator always returns a list, the records of the
    detail lookups of its log that found an item. *)
Theorem listing_error_stops_detail_error_skips :
  forall (youtube : api) (channel_id : string),
    (forall fuel videos token e,
        search_list youtube channel_id token = Raise e ->
        videos_loop youtube (S fuel) channel_id videos token =
        Some (videos,
              [Execute (SearchList channel_id token);
               Print ("Error occurred while fetching videos: " ++ e)])) /\
    (forall video_id e,
        videos_list youtube video_id = Raise e ->
        get_video_details youtube video_id =
        Some (None,
              [Execute (VideosList video_id);
               Print ("Error occurred while fetching video details for "
                      ++ video_id ++ ": " ++ e)]) /\
        forall items videos,
          collect_video_details youtube
            ({| videoId := video_id |} :: items) videos =
          (get_video_details youtube video_id ;;;
           collect_video_details youtube items videos)) /\
    (forall fuel videos log,
        get_videos_by_channel_id youtube fuel channel_id
        = Some (videos, log) ->
        videos = accumulated youtube log /\
        forall before token e after,
          log = before ++ Execute (SearchList channel_id token) :: after ->
          search_list youtube channel_id token = Raise e ->
          after = [Print ("Error occurred while fetching videos: " ++ e)] /\
          videos = accumulated youtube before).
Proof.
  intros youtube channel_id. split; [|split].
  - intros fuel videos token e Hraise.
    now rewrite videos_loop_step, Hraise.
  - intros video_id e Hraise. split.
    + unfold get_video_details. now rewrite bind_execute, Hraise.
    + intros items videos. cbn [collect_video_details videoId].
      rewrite get_video_details_eq. unfold found_record.
      now rewrite Hraise.
  - intros fuel videos log Hrun.
    apply videos_loop_log in Hrun. destruct Hrun as (Hacc & Hstop).
    split; [exact Hacc|].
    intros before token e after Hlog Hraise.
    pose proof (Hstop _ _ _ _ Hlog Hraise) as ->. split; [reflexivity|].
    rewrite Hacc, Hlog, accumulated_app. simpl. now rewrite app_nil_r.
Qed.

Lemma listing_error_stops_detail_error_skips_witness :
  videos_loop outage_api 1 "UC123"
    [video_record "b" (sample_video_item "b")] (Some "page2") =
  Some ([video_record "b" (sample_video_item "b")],
        [Execute (SearchList "UC123" (Some "page2"));
         Print "Error occurred while fetching videos: quota exceeded"]) /\
  get_video_details outage_api "a" =
  Some (None,
        [Execute (VideosList "a");
         Print "Error occurred while fetching video details for a: timed out"])
  /\
  [video_record "b" (sample_video_item "b")] =
  accumulated outage_api
    [Execute (SearchList "UC123" None);
     Execute (VideosList "a");
     Print "Error occurred while fetching video details for a: timed out";
     Execute (VideosList "b")].
Proof.
  pose proof (listing_error_stops_detail_error_skips outage_api "UC123")
    as (Hlisting & Hdetail & Hrun).
  split; [|split].
  - apply (Hlisting 0 _ (Some "page2") "quota exceeded"). reflexivity.
  - apply (Hdetail "a" "timed out"). reflexivity.
  - apply (proj2 (Hrun 2 [video_record "b" (sample_video_item "b")]
                    ([Execute (SearchList "UC123" None);
                      Execute (VideosList "a");
                      Print "Error occurred while fetching video details for a: timed out";
                      Execute (VideosList "b")] ++
                     Execute (SearchList "UC123" (Some "page2")) ::
                     [Print "Error occurred while fetching videos: quota exceeded"])
                    eq_refl)
             _ (Some "page2") "quota exceeded" _ eq_refl eq_refl).
Defined.

Lemma videos_loop_pages (youtube : api) (channel_id : string) :
  forall pages fuel videos token,
    pages_served youtube channel_id token pages ->
    List.length pages <= fuel ->
    exists log,
      videos_loop youtube fuel channel_id videos token =
      Some (videos ++ flat_map (found_record youtube) (listed_ids pages),
            log).
Proof.
  induction pages as [|page pages IH]; intros fuel videos token Hserved Hfuel;
    [contradiction|].
  destruct fuel as [|fuel]; [simpl in Hfuel; lia|].
  destruct Hserved as (Hpage & Hnext).
  rewrite videos_loop_step, Hpage. cbv zeta.
  change (listed_ids (page :: pages))
    with (map videoId (search_items page) ++ listed_ids pages).
  rewrite flat_map_app, app_assoc.
  destruct pages as [|page' pages].
  - rewrite Hnext. simpl. rewrite app_nil_r. eauto.
  - destruct Hnext as (-> & Hserved).
    destruct (IH fuel (videos ++ flat_map (found_record youtube)
                                  (map videoId (search_items page)))
                 _ Hserved) as (log & ->); [simpl in *; lia|].
    eauto.
Qed.

Lemma remove_length (missing : string) (ids : list string) :
  List.length (remove string_dec missing ids)
  + count_occ string_dec ids missing = List.length ids.
Proof.
  induction ids as [|id ids IH]; [reflexivity|].
  simpl. destruct (string_dec missing id) as [<-|Hne];
    destruct (string_dec _ _) as [Heq|Hne']; simpl; try lia; congruence.
Qed.

Lemma found_records_ids (youtube : api) (missing : string)
    (ids : list string) :
  videos_list youtube missing = Ok [] ->
  (forall id, In id ids -> id <> missing ->
              exists item others, videos_list youtube id = Ok (item :: others)) ->
  map Video.video_id (flat_map (found_record youtube) ids)
  = remove string_dec missing ids.
Proof.
  intros Hmissing Hfound. induction ids as [|id ids IH]; [reflexivity|].
  cbn [flat_map remove]. rewrite map_app, IH.
  - unfold found_record. destruct (string_dec missing id) as [<-|Hne].
    + now rewrite Hmissing.
    + destruct (Hfound id) as (item & others & ->);
        [now left | congruence | reflexivity].
  - intros id' Hin. apply Hfound. now right.
Qed.

(** C8: let the channel's listing be a finite chain of pages naming [V]
    video ids, one of which, [missing], gets a detail response with no item
    while every other id gets one with an item.  Given fuel for every page,
    the video aggregator returns a list of [V - 1] records whose ids are the
    listed ids without [missing], in listing order: nothing is recorded for
    [missing] and the result is an ordinary list, not an error. *)
Theorem missing_detail_skips_one_video :
  forall (youtube : api) (channel_id : string)
         (pages : list search_response) (missing : string) (fuel : nat),
    pages_served youtube channel_id None pages ->
    List.length pages <= fuel ->
    count_occ string_dec (listed_ids pages) missing = 1 ->
    videos_list youtube missing = Ok [] ->
    (forall id,
        In id (listed_ids pages) -> id <> missing ->
        exists item others, videos_list youtube id = Ok (item :: others)) ->
    exists videos log,
      get_videos_by_channel_id youtube fuel channel_id = Some (videos, log) /\
      List.length videos = List.length (listed_ids pages) - 1 /\
      map Video.video_id videos
      = remove string_dec missing (listed_ids pages) /\
      ~ In missing (map Video.video_id videos).
Proof.
  intros youtube channel_id pages missing fuel Hserved Hfuel Hocc Hmissing
         Hfound.
  destruct (videos_loop_pages youtube channel_id pages fuel [] None
              Hserved Hfuel) as (log & Hrun).
  exists (flat_map (found_record youtube) (listed_ids pages)), log.
  pose proof (found_records_ids youtube missing (listed_ids pages)
                Hmissing Hfound) as Hids.
  split; [exact Hrun|]. split; [|split].
  - rewrite <- (length_map Video.video_id), Hids.
    pose proof (remove_length missing (listed_ids pages)). lia.
  - exact Hids.
  - rewrite Hids. apply remove_In.
Qed.

Lemma missing_detail_skips_one_video_witness :
  exists videos log,
    get_videos_by_channel_id gap_api 2 "UC123" = Some (videos, log) /\
    List.length videos = 2 /\
    map Video.video_id videos = ["a"; "c"].
Proof.
  destruct (missing_detail_skips_one_video gap_api "UC123"
              [two_pages None; two_pages (Some "page2")] "b" 2)
    as (videos & log & Hrun & Hlen & Hids & _).
  - repeat split.
  - simpl. lia.
  - reflexivity.
  - reflexivity.
  - intros id Hin Hne. simpl in Hin.
    destruct Hin as [<-|[<-|[<-|[]]]];
      [eexists; eexists; reflexivity | congruence
      | eexists; eexists; reflexivity].
  - exists videos, log. repeat split; assumption.
Defined.

(** ** The comment aggregator *)

(** One test of the [while] condition and, when it holds, one iteration,
    by the outcome of the request. *)
Lemma comments_loop_step (youtube : api) (fuel : nat) (video_id : string)
    (max_comments : Z) (comments : list Comment.t) (token : option string)
    (count : Z) :
  comments_loop youtube (S fuel) video_id max_comments comments token count =
  if (count <? max_comments)%Z then
    match commentThreads_list youtube video_id token with
    | Raise e =>
        Some (comments,
              [Execute (CommentThreadsList video_id token);
               Print ("Error occurred while fetching comments: " ++ e)])
    | Ok page =>
        let comments' :=
          comments ++ page_records video_id (thread_items page) in
        if Py.truthy (thread_nextPageToken page)
        then match comments_loop youtube fuel video_id max_comments comments'
                     (thread_nextPageToken page)
                     (count + Z.of_nat (List.length (thread_items page)))
             with
             | Some (result, rest) =>
                 Some (result,
                       Execute (CommentThreadsList video_id token) :: rest)
             | None => None
             end
        else Some (comments',
                   [Execute (CommentThreadsList video_id token)])
    end
  else Some (comments, []).
Proof.
  cbn [comments_loop]. destruct (count <? max_comments)%Z; [|reflexivity].
  rewrite bind_execute.
  destruct (commentThreads_list youtube video_id token) as [page|e];
    [|reflexivity].
  cbv zeta. destruct (Py.truthy (thread_nextPageToken page)); reflexivity.
Qed.


Lemma threads_processed_cons (youtube : api) (e : event) (log : list event) :
  threads_processed youtube (e :: log) =
  (Z.of_nat (threads_in youtube e) + threads_processed youtube log)%Z.
Proof. unfold threads_processed. simpl. lia. Qed.

(** The log of the [while] loop started in state ([token], [count]):
    how it starts, when a request follows another, and how it can end. *)
Lemma comments_loop_log (youtube : api) (video_id : string)
    (max_comments : Z) (fuel : nat) :
  forall comments token count result log,
    comments_loop youtube fuel video_id max_comments comments token count
    = Some (result, log) ->
    ((log = [] /\ (max_comments <= count)%Z) \/
     (exists rest,
         log = Execute (CommentThreadsList video_id token) :: rest /\
         (count < max_comments)%Z)) /\
    (forall before r after,
        log = before ++ Execute r :: after ->
        before <> [] ->
        exists earlier token0 page,
          before = earlier ++ [Execute (CommentThreadsList video_id token0)] /\
          commentThreads_list youtube video_id token0 = Ok page /\
          Py.truthy (thread_nextPageToken page) = true /\
          r = CommentThreadsList video_id (thread_nextPageToken page) /\
          (count + threads_processed youtube before < max_comments)%Z) /\
    (forall earlier token0 page,
        log = earlier ++ [Execute (CommentThreadsList video_id token0)] ->
        commentThreads_list youtube video_id token0 = Ok page ->
        Py.truthy (thread_nextPageToken page) = true ->
        (max_comments <= count + threads_processed youtube log)%Z).
Proof.
  induction fuel as [|fuel IH]; intros comments token count result log.
  - cbn [comments_loop].
    destruct (Z.ltb_spec count max_comments) as [Hlt|Hge]; [discriminate|].
    intros H. injection H as _ <-. split; [now left|]. split.
    + intros [|? ?] ? ? ?; discriminate.
    + intros [|? [|? ?]] ? ? ?; discriminate.
  - rewrite comments_loop_step.
    destruct (Z.ltb_spec count max_comments) as [Hlt|Hge].
    2:{ intros H. injection H as _ <-. split; [now left|]. split.
        - intros [|? ?] ? ? ?; discriminate.
        - intros [|? [|? ?]] ? ? ?; discriminate. }
    destruct (commentThreads_list youtube video_id token) as [page|e]
      eqn:Hpage.
    + cbv zeta.
      destruct (Py.truthy (thread_nextPageToken page)) eqn:Hnext.
      * destruct (comments_loop _ _ _ _ _ _ _) as [[r0 rest]|] eqn:Hloop;
          [|discriminate].
        intros H. injection H as _ <-.
        destruct (IH _ _ _ _ _ Hloop) as (Hfirst & Hmore & Hend).
        assert (Hhere :
                  threads_in youtube
                    (Execute (CommentThreadsList video_id token))
                  = List.length (thread_items page)).
        { simpl. now rewrite Hpage. }
        split; [right; eauto|]. split.
        -- intros before r after Hlog Hne.
           destruct before as [|b before]; [contradiction|].
           injection Hlog as <- Hrest.
           destruct before as [|b' before].
           ++ destruct Hfirst as [(Hnil & _) | (rest' & Hrest' & Hlt')];
                [subst rest; discriminate|].
              rewrite Hrest' in Hrest. injection Hrest as <- _.
              exists [], token, page. repeat split; try assumption.
              rewrite threads_processed_cons, Hhere.
              unfold threads_processed. simpl. lia.
           ++ destruct (Hmore (b' :: before) r after Hrest)
                as (earlier & token0 & page0 & Hb & Hp0 & Hn0 & Hr & Hc);
                [discriminate|].
              exists (Execute (CommentThreadsList video_id token) :: earlier),
                     token0, page0.
              repeat split; try assumption.
              ** simpl. now rewrite Hb.
              ** rewrite threads_processed_cons, Hhere. lia.
        -- intros earlier token0 page0 Hlog Hp0 Hn0.
           rewrite threads_processed_cons, Hhere.
           destruct earlier as [|b earlier].
           ++ injection Hlog as _ Hrest. subst rest.
              destruct Hfirst as [(_ & Hge) | (? & Hcontra & _)];
                [|discriminate].
              unfold threads_processed. simpl. lia.
           ++ injection Hlog as _ Hrest.
              pose proof (Hend _ _ _ Hrest Hp0 Hn0). lia.
      * intros H. injection H as _ <-.
        split; [right; eauto|]. split.
        -- intros [|? [|? ?]] ? ? Hlog Hne;
             [contradiction | discriminate | discriminate].
        -- intros [|? [|? ?]] token0 page0 Hlog Hp0 Hn0; try discriminate.
           injection Hlog as <-. rewrite Hpage in Hp0.
           injection Hp0 as <-. congruence.
    + intros H. injection H as _ <-.
      split; [right; eauto|]. split.
      * intros [|? [|? [|? ?]]] ? ? Hlog Hne;
          [contradiction | discriminate | discriminate | discriminate].
      * intros [|? [|? [|? ?]]] ? ? Hlog; discriminate.
Qed.

(** C1: in a call with [max_comments > 0] the first request carries no
    cursor, and a request follows another only if the earlier response
    carried a cursor, which the later request passes on, and if the threads
    processed until then are strictly fewer than [max_comments]; when the
    last response of the log still carried a cursor, the threads processed
    have reached [max_comments].  The cap counts threads, not records: for
    some service, whose first page holds one thread with replies, a call
    processes no more threads than [max_comments] and yet returns more
    records than [max_comments], one per thread processed plus one per
    reply carried. *)
Theorem further_page_only_below_cap :
  (forall (youtube : api) (fuel : nat) (video_id : string)
          (max_comments : Z) (comments : list Comment.t) (log : list event),
      (0 < max_comments)%Z ->
      get_comments_by_video_id youtube fuel video_id max_comments
      = Some (comments, log) ->
      (exists rest,
          log = Execute (CommentThreadsList video_id None) :: rest) /\
      (forall before r after,
          log = before ++ Execute r :: after ->
          before <> [] ->
          exists earlier token0 page,
            before
            = earlier ++ [Execute (CommentThreadsList video_id token0)] /\
            commentThreads_list youtube video_id token0 = Ok page /\
            Py.truthy (thread_nextPageToken page) = true /\
            r = CommentThreadsList video_id (thread_nextPageToken page) /\
            (threads_processed youtube before < max_comments)%Z) /\
      (forall earlier token0 page,
          log = earlier ++ [Execute (CommentThreadsList video_id token0)] ->
          commentThreads_list youtube video_id token0 = Ok page ->
          Py.truthy (thread_nextPageToken page) = true ->
          (max_comments <= threads_processed youtube log)%Z)) /\
  (exists (youtube : api) (video_id : string) (max_comments : Z)
          (page : thread_response) (thread : thread_item)
          (reply : reply_item) (others : list reply_item)
          (comments : list Comment.t) (log : list event),
      (0 < max_comments)%Z /\
      commentThreads_list youtube video_id None = Ok page /\
      In thread (thread_items page) /\
      replies thread = Some (reply :: others) /\
      get_comments_by_video_id youtube 1 video_id max_comments
      = Some (comments, log) /\
      (threads_processed youtube log <= max_comments)%Z /\
      Z.of_nat (List.length comments)
      = (threads_processed youtube log
         + Z.of_nat (replies_carried (thread_items page)))%Z /\
      (max_comments < Z.of_nat (List.length comments))%Z).
Proof.
  split.
  - intros youtube fuel video_id max_comments comments log Hmax Hrun.
    apply comments_loop_log in Hrun.
    destruct Hrun as (Hfirst & Hmore & Hend). split; [|split].
    + destruct Hfirst as [(_ & Hle) | (rest & -> & _)]; [lia | eauto].
    + intros before r after Hlog Hne.
      destruct (Hmore before r after Hlog Hne)
        as (earlier & token0 & page & Hb & Hp & Hn & Hr & Hc).
      exists earlier, token0, page. repeat split; assumption.
    + intros earlier token0 page Hlog Hp Hn.
      pose proof (Hend earlier token0 page Hlog Hp Hn). lia.
  - exists threaded_api, "v1", 1%Z,
      {| thread_items := [busy_thread];
         thread_nextPageToken := Some "p2" |},
      busy_thread, (sample_reply "t1.r1"), [sample_reply "t1.r2"].
    eexists. eexists. split; [reflexivity|]. split; [reflexivity|].
    split; [now left|]. split; [reflexivity|]. split; [reflexivity|].
    split; [discriminate|]. split; reflexivity.
Qed.

Lemma further_page_only_below_cap_witness :
  (threads_processed threaded_api
     [Execute (CommentThreadsList "v1" None)] < 2)%Z.
Proof.
  destruct (proj1 further_page_only_below_cap threaded_api 2 "v1" 2%Z
              [top_level_record "v1" busy_thread;
               reply_record "v1" "t1" (sample_reply "t1.r1");
               reply_record "v1" "t1" (sample_reply "t1.r2");
               top_level_record "v1" (plain_thread "t2");
               top_level_record "v1" (plain_thread "t3")]
              [Execute (CommentThreadsList "v1" None);
               Execute (CommentThreadsList "v1" (Some "p2"))]
              eq_refl eq_refl) as (_ & Hmore & _).
  destruct (Hmore [Execute (CommentThreadsList "v1" None)]
              (CommentThreadsList "v1" (Some "p2")) [] eq_refl)
    as (earlier & token0 & page & _ & _ & _ & _ & Hcap).
  - discriminate.
  - exact Hcap.
Defined.

(** ** The comment budget of the orchestrator *)

Lemma collect_comments_visits (youtube : api) (fuel : nat)
    (max_comments : Z) (videos : list Video.t) :
  forall collected result log,
    collect_comments youtube fuel videos max_comments collected
    = Some (result, log) ->
    exists visited skipped fetched,
      videos = visited ++ skipped /\
      visited_with youtube fuel max_comments collected visited fetched /\
      result = collected ++ List.concat (map fst fetched) /\
      log = List.concat (map snd fetched) /\
      (skipped <> [] -> (max_comments <= Z.of_nat (List.length result))%Z).
Proof.
  induction videos as [|video videos IH]; intros collected result log.
  - intros H. injection H as <- <-. exists [], [], [].
    repeat split; [now rewrite app_nil_r | congruence].
  - cbn [collect_comments].
    destruct (Z.geb_spec (Z.of_nat (List.length collected)) max_comments)
      as [Hge|Hlt].
    + intros H. injection H as <- <-. exists [], (video :: videos), [].
      repeat split; [now rewrite app_nil_r | lia].
    + intros H. apply bind_Some in H.
      destruct H as (comments & log1 & log2 & Hfetch & Hrest & ->).
      destruct (IH _ _ _ Hrest)
        as (visited & skipped & fetched & -> & Hvisited & -> & -> & Hstop).
      exists (video :: visited), skipped, ((comments, log1) :: fetched).
      repeat split; try assumption.
      now rewrite <- app_assoc.
Qed.

Lemma videos_loop_no_comment_request (youtube : api) (channel_id : string)
    (fuel : nat) :
  forall videos token result log video_id token',
    videos_loop youtube fuel channel_id videos token = Some (result, log) ->
    ~ In (Execute (CommentThreadsList video_id token')) log.
Proof.
  induction fuel as [|fuel IH];
    intros videos token result log video_id token'; [discriminate|].
  rewrite videos_loop_step.
  assert (Hdetails : forall ids,
             ~ In (Execute (CommentThreadsList video_id token'))
                  (flat_map (details_log youtube) ids)).
  { intros ids Hin. apply in_flat_map in Hin. destruct Hin as (id & _ & Hin).
    unfold details_log in Hin. destruct Hin as [Heq|Hin]; [discriminate|].
    destruct (videos_list youtube id); simpl in Hin;
      [contradiction | destruct Hin as [Heq|[]]; discriminate]. }
  destruct (search_list youtube channel_id token) as [page|e].
  - cbv zeta. destruct (Py.truthy (search_nextPageToken page)).
    + destruct (videos_loop _ _ _ _ _) as [[r rest]|] eqn:Hloop;
        [|discriminate].
      intros H. injection H as _ <-. intros [Heq|Hin]; [discriminate|].
      apply in_app_or in Hin. destruct Hin as [Hin|Hin].
      * now apply Hdetails in Hin.
      * now apply (IH _ _ _ _ _ _ Hloop) in Hin.
    + intros H. injection H as _ <-. intros [Heq|Hin];
        [discriminate | now apply Hdetails in Hin].
  - intros H. injection H as _ <-.
    intros [Heq|[Heq|[]]]; discriminate.
Qed.

Lemma save_videos_to_excel_eq (openpyxl : sheets) (videos : list Video.t)
    (filename : string) :
  save_videos_to_excel openpyxl videos filename =
  match sheet_outcome openpyxl filename "Videos"
          (video_headers :: map video_row videos) with
  | Raise e => Some (Raise e, [])
  | Ok _ =>
      Some (Ok tt,
            [SaveWorkbook filename "Videos"
               (video_headers :: map video_row videos);
             Print ("Excel file saved successfully: " ++ filename)])
  end.
Proof.
  unfold save_videos_to_excel, sheet_outcome. cbv zeta.
  destruct (append_rows openpyxl _) as [u|e]; [|reflexivity].
  destruct (wb_save openpyxl _ _ _) as [u'|e]; reflexivity.
Qed.

Lemma export_comments_to_excel_eq (openpyxl : sheets)
    (comments : list Comment.t) (filename : string) :
  export_comments_to_excel openpyxl comments filename =
  match sheet_outcome openpyxl filename "Comments"
          (comment_headers :: map comment_row comments) with
  | Raise e => Some (Raise e, [])
  | Ok _ =>
      Some (Ok tt,
            [SaveWorkbook filename "Comments"
               (comment_headers :: map comment_row comments);
             Print ("Excel file saved successfully: " ++ filename)])
  end.
Proof.
  unfold export_comments_to_excel, sheet_outcome. cbv zeta.
  destruct (append_rows openpyxl _) as [u|e]; [|reflexivity].
  destruct (wb_save openpyxl _ _ _) as [u'|e]; reflexivity.
Qed.

(** A run of [main] whose handle resolves, by what the two exports
    answer. *)
Lemma main_resolved (youtube : api) (openpyxl : sheets) (fuel : nat)
    (username_line count_line : string) (max_comments : Z)
    (username : string) (item : channel_item) (items : list channel_item) :
  Py.int count_line = Some max_comments ->
  Py.last_item (Py.split "/" username_line) = Some username ->
  channels_list youtube username = Ok (Some (item :: items)) ->
  Py.truthy (Some (channel_id_of item)) = true ->
  main youtube openpyxl fuel username_line count_line =
  match get_videos_by_channel_id youtube fuel (channel_id_of item) with
  | None => None
  | Some (videos, listing) =>
      match video_sheet openpyxl username videos with
      | Raise e =>
          Some (Uncaught e,
                listed_log username (channel_id_of item) listing)
      | Ok _ =>
          match collect_comments youtube fuel videos max_comments [] with
          | None => None
          | Some (comments, fetching) =>
              match comment_sheet openpyxl username comments with
              | Raise e =>
                  Some (Uncaught e,
                        listed_log username (channel_id_of item) listing
                        ++ video_export username videos ++ fetching)
              | Ok _ =>
                  Some (Completed,
                        completed_log username (channel_id_of item) videos
                          listing comments fetching)
              end
          end
      end
  end.
Proof.
  intros Hint Hlast Hchannel Htruthy.
  unfold main. rewrite !bind_emit, Hint, Hlast.
  unfold get_channel_id_by_username. rewrite bind_execute, Hchannel.
  unfold bind, ret, print, emit. rewrite Htruthy. cbv beta iota. cbn [negb].
  destruct (get_videos_by_channel_id youtube fuel (channel_id_of item))
    as [[videos listing]|]; [|reflexivity].
  rewrite save_videos_to_excel_eq. unfold video_sheet, comment_sheet.
  destruct (sheet_outcome openpyxl _ "Videos" _) as [u|e].
  - destruct (collect_comments youtube fuel videos max_comments [])
      as [[comments fetching]|]; [|reflexivity].
    rewrite export_comments_to_excel_eq.
    destruct (sheet_outcome openpyxl _ "Comments" _) as [u'|e].
    + unfold completed_log, prompts, video_export, comment_export.
      rewrite !app_nil_r. reflexivity.
    + unfold listed_log, prompts, video_export.
      rewrite !app_nil_r. cbn [app]. do 6 f_equal.
  - unfold listed_log, prompts. now rewrite !app_nil_r.
Qed.

Lemma main_completed_inv (youtube : api) (openpyxl : sheets) (fuel : nat)
    (username_line count_line : string) (log : list event) :
  main youtube openpyxl fuel username_line count_line = Some (Completed, log) ->
  exists max_comments username item items,
    Py.int count_line = Some max_comments /\
    Py.last_item (Py.split "/" username_line) = Some username /\
    channels_list youtube username = Ok (Some (item :: items)) /\
    Py.truthy (Some (channel_id_of item)) = true.
Proof.
  intros Hrun. pose proof Hrun as Hinv. apply main_inv in Hinv.
  destruct Hinv as [(_ & He & _) | (n & u & rest & Hint & Hu & _ & _)];
    [discriminate|].
  destruct (channel_found youtube u) eqn:Hfound.
  - unfold channel_found in Hfound.
    destruct (channels_list youtube u) as [[[|item items]|]|e] eqn:Hchannel;
      try discriminate.
    exists n, u, item, items. repeat split; try assumption.
    destruct (Py.truthy (Some (channel_id_of item))) eqn:Htruthy;
      [reflexivity|].
    exfalso. revert Hrun. unfold main. rewrite !bind_emit, Hint, Hu.
    unfold get_channel_id_by_username. rewrite bind_execute, Hchannel.
    unfold bind at 1. cbn [ret]. rewrite Htruthy. discriminate.
  - rewrite (main_unresolved _ _ _ _ _ _ _ Hint Hu Hfound) in Hrun.
    discriminate.
Qed.

Lemma plain_page_records (video_id : string) (first second : thread_item) :
  replies first = None ->
  replies second = None ->
  page_records video_id [first; second]
  = [top_level_record video_id first; top_level_record video_id second].
Proof.
  intros H1 H2. unfold page_records, thread_records. simpl.
  now rewrite H1, H2.
Qed.

Lemma single_page_comments (youtube : api) (fuel : nat) (video_id : string)
    (max_comments : Z) (page : thread_response) :
  (0 < max_comments)%Z ->
  commentThreads_list youtube video_id None = Ok page ->
  Py.truthy (thread_nextPageToken page) = false ->
  get_comments_by_video_id youtube (S fuel) video_id max_comments
  = Some (page_records video_id (thread_items page),
          [Execute (CommentThreadsList video_id None)]).
Proof.
  intros Hmax Hpage Hnext. unfold get_comments_by_video_id.
  rewrite comments_loop_step, Hpage, Hnext.
  now destruct (Z.ltb_spec 0 max_comments); [|lia].
Qed.

Lemma main_completed_log (youtube : api) (openpyxl : sheets) (fuel : nat)
    (username_line count_line : string) (log : list event) :
  main youtube openpyxl fuel username_line count_line
  = Some (Completed, log) ->
  exists max_comments username channel_id videos listing comments fetching,
    Py.int count_line = Some max_comments /\
    Py.last_item (Py.split "/" username_line) = Some username /\
    get_videos_by_channel_id youtube fuel channel_id
    = Some (videos, listing) /\
    collect_comments youtube fuel videos max_comments []
    = Some (comments, fetching) /\
    log = completed_log username channel_id videos listing comments fetching.
Proof.
  intros Hrun.
  destruct (main_completed_inv _ _ _ _ _ _ Hrun)
    as (n & u & item & items & Hint & Hu & Hchannel & Htruthy).
  rewrite (main_resolved _ _ _ _ _ _ _ _ _ Hint Hu Hchannel Htruthy) in Hrun.
  destruct (get_videos_by_channel_id youtube fuel (channel_id_of item))
    as [[videos listing]|] eqn:Hvideos; [|discriminate].
  destruct (video_sheet openpyxl u videos); [|discriminate].
  destruct (collect_comments youtube fuel videos n [])
    as [[comments fetching]|] eqn:Hcollect; [|discriminate].
  destruct (comment_sheet openpyxl u comments); [|discriminate].
  injection Hrun as <-.
  exists n, u, (channel_id_of item), videos, listing, comments, fetching.
  repeat split; assumption.
Qed.

(** The comment requests of a run lie in what the two aggregators
    logged. *)
Lemma completed_log_comment_request (username channel_id : string)
    (videos : list Video.t) (listing : list event)
    (comments : list Comment.t) (fetching : list event)
    (video_id : string) (token : option string) :
  In (Execute (CommentThreadsList video_id token))
     (completed_log username channel_id videos listing comments fetching) ->
  In (Execute (CommentThreadsList video_id token)) listing \/
  In (Execute (CommentThreadsList video_id token)) fetching.
Proof.
  intros Hin. unfold completed_log in Hin.
  repeat (apply in_app_or in Hin; destruct Hin as [Hin|Hin]).
  - destruct Hin as [Heq|[Heq|[]]]; discriminate.
  - destruct Hin as [Heq|[Heq|[]]]; discriminate.
  - now left.
  - destruct Hin as [Heq|[Heq|[]]]; discriminate.
  - now right.
  - destruct Hin as [Heq|[Heq|[]]]; discriminate.
Qed.

Lemma listed_log_incl (username channel_id : string)
    (videos : list Video.t) (listing : list event)
    (comments : list Comment.t) (fetching : list event) :
  incl (listed_log username channel_id listing)
       (completed_log username channel_id videos listing comments fetching)
  /\
  incl (listed_log username channel_id listing
        ++ video_export username videos ++ fetching)
       (completed_log username channel_id videos listing comments fetching).
Proof.
  unfold listed_log, completed_log. split; intros x Hin.
  - repeat (apply in_app_or in Hin; destruct Hin as [Hin|Hin]);
      repeat (apply in_or_app; (now left) || right); now apply in_or_app; left.
  - repeat (apply in_app_or in Hin; destruct Hin as [Hin|Hin]).
    + apply in_or_app. now left.
    + apply in_or_app. right. apply in_or_app. now left.
    + do 2 (apply in_or_app; right). apply in_or_app. now left.
    + do 3 (apply in_or_app; right). apply in_or_app. now left.
    + do 4 (apply in_or_app; right). apply in_or_app. now left.
Qed.

(** C2: a run of [main] that reaches the exports has listed the videos
    once, saved them, then walked a prefix of that list in order: each
    visited video was fetched while fewer than [max_comments] records were
    held, with [max_comments] minus the number of records held as its own
    budget, and a video is left unvisited only once the records held reach
    [max_comments]; the comment workbook holds the records of the visited
    videos in that order.  With three videos whose single comment page holds
    two threads without replies and a budget of 4, the loop collects the
    four records of the first two videos with one request each; no run has
    a comment request for the third video, whatever the spreadsheet library
    answers; and when the library accepts both sheets the run completes and
    the comment workbook holds those four records. *)
Theorem budget_across_videos :
  forall (youtube : api) (openpyxl : sheets) (fuel : nat)
         (username_line count_line : string),
    (forall log,
        main youtube openpyxl fuel username_line count_line
        = Some (Completed, log) ->
        exists max_comments username channel_id videos listing
               visited skipped fetched,
          Py.int count_line = Some max_comments /\
          get_videos_by_channel_id youtube fuel channel_id
          = Some (videos, listing) /\
          videos = visited ++ skipped /\
          visited_with youtube fuel max_comments [] visited fetched /\
          (skipped <> [] ->
           (max_comments
            <= Z.of_nat (List.length (List.concat (map fst fetched))))%Z) /\
          log = completed_log username channel_id videos listing
                  (List.concat (map fst fetched))
                  (List.concat (map snd fetched))) /\
    (forall username item items v1 v2 v3 listing page1 page2 a1 b1 a2 b2,
        (1 <= fuel)%nat ->
        Py.int count_line = Some 4%Z ->
        Py.last_item (Py.split "/" username_line) = Some username ->
        channels_list youtube username = Ok (Some (item :: items)) ->
        Py.truthy (Some (channel_id_of item)) = true ->
        get_videos_by_channel_id youtube fuel (channel_id_of item)
        = Some ([v1; v2; v3], listing) ->
        commentThreads_list youtube (Video.video_id v1) None = Ok page1 ->
        thread_items page1 = [a1; b1] ->
        replies a1 = None -> replies b1 = None ->
        Py.truthy (thread_nextPageToken page1) = false ->
        commentThreads_list youtube (Video.video_id v2) None = Ok page2 ->
        thread_items page2 = [a2; b2] ->
        replies a2 = None -> replies b2 = None ->
        Py.truthy (thread_nextPageToken page2) = false ->
        Video.video_id v3 <> Video.video_id v1 ->
        Video.video_id v3 <> Video.video_id v2 ->
        let comments :=
          [top_level_record (Video.video_id v1) a1;
           top_level_record (Video.video_id v1) b1;
           top_level_record (Video.video_id v2) a2;
           top_level_record (Video.video_id v2) b2] in
        let fetching :=
          [Execute (CommentThreadsList (Video.video_id v1) None);
           Execute (CommentThreadsList (Video.video_id v2) None)] in
        collect_comments youtube fuel [v1; v2; v3] 4 []
        = Some (comments, fetching) /\
        List.length comments = 4 /\
        (exists e log,
            main youtube openpyxl fuel username_line count_line
            = Some (e, log)) /\
        (forall e log,
            main youtube openpyxl fuel username_line count_line
            = Some (e, log) ->
            forall token,
              ~ In (Execute (CommentThreadsList (Video.video_id v3) token))
                   log) /\
        (video_sheet openpyxl username [v1; v2; v3] = Ok tt ->
         comment_sheet openpyxl username comments = Ok tt ->
         main youtube openpyxl fuel username_line count_line
         = Some (Completed,
                 completed_log username (channel_id_of item) [v1; v2; v3]
                   listing comments fetching))).
Proof.
  intros youtube openpyxl fuel username_line count_line. split.
  - intros log Hrun.
    destruct (main_completed_log _ _ _ _ _ _ Hrun)
      as (n & u & c & videos & listing & comments & fetching
          & Hint & _ & Hvideos & Hcollect & ->).
    destruct (collect_comments_visits _ _ _ _ _ _ _ Hcollect)
      as (visited & skipped & fetched & Hsplit & Hvisited & Hc & Hl & Hstop).
    simpl in Hc. subst comments fetching.
    exists n, u, c, videos, listing, visited, skipped, fetched.
    repeat split; assumption.
  - intros u item items v1 v2 v3 listing page1 page2 a1 b1 a2 b2
           Hfuel Hint Hu Hchannel Htruthy Hvideos
           Hpage1 Hitems1 Ha1 Hb1 Hnext1 Hpage2 Hitems2 Ha2 Hb2 Hnext2
           Hne1 Hne2.
    cbv zeta.
    assert (Hcollect :
              collect_comments youtube fuel [v1; v2; v3] 4 [] =
              Some ([top_level_record (Video.video_id v1) a1;
                     top_level_record (Video.video_id v1) b1;
                     top_level_record (Video.video_id v2) a2;
                     top_level_record (Video.video_id v2) b2],
                    [Execute (CommentThreadsList (Video.video_id v1) None);
                     Execute (CommentThreadsList (Video.video_id v2) None)])).
    { destruct fuel as [|fuel]; [lia|].
      cbn [collect_comments List.length app].
      rewrite (single_page_comments _ _ _ _ page1) by (assumption || lia).
      rewrite Hitems1, (plain_page_records _ _ _ Ha1 Hb1).
      change (Z.of_nat 0 >=? 4)%Z with false. cbv iota.
      unfold bind at 1. cbn [collect_comments List.length app].
      rewrite (single_page_comments _ _ _ _ page2) by (assumption || lia).
      rewrite Hitems2, (plain_page_records _ _ _ Ha2 Hb2).
      reflexivity. }
    pose proof (main_resolved youtube openpyxl fuel _ _ _ _ _ _
                  Hint Hu Hchannel Htruthy) as Hmain.
    rewrite Hvideos, Hcollect in Hmain.
    assert (Hnone : forall token,
               ~ In (Execute (CommentThreadsList (Video.video_id v3) token))
                    (completed_log u (channel_id_of item) [v1; v2; v3]
                       listing
                       [top_level_record (Video.video_id v1) a1;
                        top_level_record (Video.video_id v1) b1;
                        top_level_record (Video.video_id v2) a2;
                        top_level_record (Video.video_id v2) b2]
                       [Execute (CommentThreadsList (Video.video_id v1) None);
                        Execute
                          (CommentThreadsList (Video.video_id v2) None)])).
    { intros token Hin. apply completed_log_comment_request in Hin.
      destruct Hin as [Hin|Hin].
      - revert Hin. eapply videos_loop_no_comment_request. exact Hvideos.
      - destruct Hin as [Heq|[Heq|[]]]; injection Heq as Heq _; congruence. }
    split; [exact Hcollect|]. split; [reflexivity|]. split; [|split].
    + rewrite Hmain.
      destruct (video_sheet openpyxl u [v1; v2; v3]); [|eauto].
      destruct (comment_sheet openpyxl u _); eauto.
    + intros e log Hrun token Hin. rewrite Hmain in Hrun.
      apply (Hnone token). revert Hin.
      destruct (listed_log_incl u (channel_id_of item) [v1; v2; v3] listing
                  [top_level_record (Video.video_id v1) a1;
                   top_level_record (Video.video_id v1) b1;
                   top_level_record (Video.video_id v2) a2;
                   top_level_record (Video.video_id v2) b2]
                  [Execute (CommentThreadsList (Video.video_id v1) None);
                   Execute (CommentThreadsList (Video.video_id v2) None)])
        as (Hincl1 & Hincl2).
      destruct (video_sheet openpyxl u [v1; v2; v3]).
      * destruct (comment_sheet openpyxl u _);
          injection Hrun as _ <-; [trivial | apply Hincl2].
      * injection Hrun as _ <-. apply Hincl1.
    + intros Hsheet1 Hsheet2. rewrite Hmain, Hsheet1, Hsheet2. reflexivity.
Qed.

Lemma budget_across_videos_witness :
  main demo_api plain_sheets 1 "https://www.youtube.com/example" "4" =
  Some (Completed,
        completed_log "example" "UC123"
          [video_record "v1" (sample_video_item "v1");
           video_record "v2" (sample_video_item "v2");
           video_record "v3" (sample_video_item "v3")]
          [Execute (SearchList "UC123" None); Execute (VideosList "v1");
           Execute (VideosList "v2"); Execute (VideosList "v3")]
          [top_level_record "v1" (plain_thread "v1-c1");
           top_level_record "v1" (plain_thread "v1-c2");
           top_level_record "v2" (plain_thread "v2-c1");
           top_level_record "v2" (plain_thread "v2-c2")]
          [Execute (CommentThreadsList "v1" None);
           Execute (CommentThreadsList "v2" None)]).
Proof.
  refine (proj2 (proj2 (proj2 (proj2
            (proj2 (budget_across_videos demo_api plain_sheets 1
                      "https://www.youtube.com/example" "4")
               "example" {| channel_id_of := "UC123" |} []
               (video_record "v1" (sample_video_item "v1"))
               (video_record "v2" (sample_video_item "v2"))
               (video_record "v3" (sample_video_item "v3"))
               _
               {| thread_items :=
                    [plain_thread "v1-c1"; plain_thread "v1-c2"];
                  thread_nextPageToken := None |}
               {| thread_items :=
                    [plain_thread "v2-c1"; plain_thread "v2-c2"];
                  thread_nextPageToken := None |}
               (plain_thread "v1-c1") (plain_thread "v1-c2")
               (plain_thread "v2-c1") (plain_thread "v2-c2")
               _ _ _ _ _ _ _ _ _ _ _ _ _ _ _ _ _ _))))
            _ _);
    try reflexivity; discriminate.
Defined.

(** * Further properties of the script *)

(** ** Pagination of the video listing *)

Lemma details_log_tokens (youtube : api) (ids : list string) :
  listing_tokens (flat_map (details_log youtube) ids) = [].
Proof.
  induction ids as [|id ids IH]; [reflexivity|].
  cbn [flat_map]. unfold listing_tokens in *. rewrite flat_map_app, IH.
  unfold details_log. now destruct (videos_list youtube id).
Qed.

Lemma details_log_requests (youtube : api) (ids : list string) :
  detail_requests (flat_map (details_log youtube) ids) = ids.
Proof.
  induction ids as [|id ids IH]; [reflexivity|].
  cbn [flat_map]. unfold detail_requests in *. rewrite flat_map_app, IH.
  unfold details_log. now destruct (videos_list youtube id).
Qed.

Lemma details_log_events (youtube : api) (ids : list string) :
  forallb listing_event (flat_map (details_log youtube) ids) = true.
Proof.
  induction ids as [|id ids IH]; [reflexivity|].
  cbn [flat_map]. rewrite forallb_app, IH.
  unfold details_log. now destruct (videos_list youtube id).
Qed.

Lemma cursor_chain_nonempty (youtube : api) (channel_id : string)
    (token : option string) (tokens : list (option string)) :
  cursor_chain youtube channel_id token tokens -> tokens <> [].
Proof. destruct tokens; [contradiction | discriminate]. Qed.

Lemma listing_tokens_page (youtube : api) (channel_id : string)
    (token : option string) (ids : list string) (rest : list event) :
  listing_tokens (Execute (SearchList channel_id token)
                  :: flat_map (details_log youtube) ids ++ rest)
  = token :: listing_tokens rest.
Proof.
  unfold listing_tokens. cbn [flat_map app]. rewrite flat_map_app.
  fold (listing_tokens (flat_map (details_log youtube) ids)).
  now rewrite details_log_tokens.
Qed.

Lemma detail_requests_page (youtube : api) (channel_id : string)
    (token : option string) (ids : list string) (rest : list event) :
  detail_requests (Execute (SearchList channel_id token)
                   :: flat_map (details_log youtube) ids ++ rest)
  = ids ++ detail_requests rest.
Proof.
  unfold detail_requests. cbn [flat_map app]. rewrite flat_map_app.
  fold (detail_requests (flat_map (details_log youtube) ids)).
  now rewrite details_log_requests.
Qed.

Lemma videos_loop_protocol (youtube : api) (channel_id : string)
    (fuel : nat) :
  forall videos token result log,
    videos_loop youtube fuel channel_id videos token = Some (result, log) ->
    cursor_chain youtube channel_id token (listing_tokens log) /\
    detail_requests log
    = flat_map (page_ids youtube channel_id) (listing_tokens log) /\
    forallb listing_event log = true.
Proof.
  induction fuel as [|fuel IH]; intros videos token result log;
    [discriminate|].
  rewrite videos_loop_step.
  destruct (search_list youtube channel_id token) as [page|e] eqn:Hpage.
  - cbv zeta. set (ids := map videoId (search_items page)).
    assert (Hids : page_ids youtube channel_id token = ids).
    { unfold page_ids. now rewrite Hpage. }
    destruct (Py.truthy (search_nextPageToken page)) eqn:Hnext.
    + destruct (videos_loop _ _ _ _ _) as [[r rest]|] eqn:Hloop;
        [|discriminate].
      intros H. injection H as _ <-.
      destruct (IH _ _ _ _ Hloop) as (Hchain & Hdetails & Hevents).
      cbn [app]. rewrite listing_tokens_page, detail_requests_page.
      split; [|split].
      * pose proof (cursor_chain_nonempty _ _ _ _ Hchain) as Hne.
        destruct (listing_tokens rest) as [|t ts] eqn:Hts; [contradiction|].
        cbn [cursor_chain]. split; [reflexivity|]. exists page.
        split; [assumption|]. split; [assumption | exact Hchain].
      * cbn [flat_map]. now rewrite Hids, Hdetails.
      * cbn [forallb listing_event andb]. rewrite forallb_app.
        now rewrite details_log_events, Hevents.
    + intros H. injection H as _ <-.
      rewrite <- (app_nil_r (flat_map (details_log youtube) ids)).
      rewrite listing_tokens_page, detail_requests_page.
      split; [|split].
      * cbn [cursor_chain listing_tokens flat_map]. now rewrite Hpage.
      * cbn [flat_map listing_tokens detail_requests]. now rewrite Hids.
      * cbn [forallb listing_event andb]. rewrite forallb_app.
        now rewrite details_log_events.
  - intros H. injection H as _ <-. split; [|split].
    + cbn. now rewrite Hpage.
    + cbn. unfold page_ids. now rewrite Hpage.
    + reflexivity.
Qed.

(** X3: in every run of the video aggregator that returns, the listing
    requests form one cursor chain: the first carries no cursor, each
    later one carries the cursor of the response before it, and the last
    one raised or was answered without cursor.  Between them the run makes
    exactly one detail request per listed item, in listing order, and it
    logs nothing but listing requests, detail requests and printed lines. *)
Theorem listing_requests_chained :
  forall (youtube : api) (fuel : nat) (channel_id : string)
         (videos : list Video.t) (log : list event),
    get_videos_by_channel_id youtube fuel channel_id = Some (videos, log) ->
    cursor_chain youtube channel_id None (listing_tokens log) /\
    detail_requests log
    = flat_map (page_ids youtube channel_id) (listing_tokens log) /\
    forallb listing_event log = true.
Proof.
  intros youtube fuel channel_id videos log Hrun.
  exact (videos_loop_protocol _ _ _ _ _ _ _ Hrun).
Qed.

Lemma listing_requests_chained_witness :
  cursor_chain flaky_api "UC123" None [None; Some "page2"] /\
  ["a"; "b"; "c"]
  = flat_map (page_ids flaky_api "UC123") [None; Some "page2"].
Proof.
  destruct (listing_requests_chained flaky_api 2 "UC123"
              [video_record "b" (sample_video_item "b");
               video_record "c" (sample_video_item "c")]
              [Execute (SearchList "UC123" None);
               Execute (VideosList "a");
               Print "Error occurred while fetching video details for a: timed out";
               Execute (VideosList "b");
               Execute (SearchList "UC123" (Some "page2"));
               Execute (VideosList "c")]
              eq_refl) as (Hchain & Hdetails & _).
  split; [exact Hchain | exact Hdetails].
Defined.

Lemma found_records_all (youtube : api) (ids : list string) :
  (forall id, In id ids ->
              exists item others, videos_list youtube id = Ok (item :: others)) ->
  map Video.video_id (flat_map (found_record youtube) ids) = ids.
Proof.
  intros Hfound. induction ids as [|id ids IH]; [reflexivity|].
  cbn [flat_map]. rewrite map_app, IH.
  - unfold found_record.
    destruct (Hfound id) as (item & others & ->); [now left | reflexivity].
  - intros id' Hin. apply Hfound. now right.
Qed.

(** X2: when the channel's listing is a finite chain of pages and every
    listed id has a detail item, the video aggregator, given fuel for each
    page, returns one record per listed item, in listing order across the
    pages: the ids of the result are exactly the listed ids, nothing
    dropped, repeated or reordered. *)
Theorem complete_listing_in_order :
  forall (youtube : api) (channel_id : string)
         (pages : list search_response) (fuel : nat),
    pages_served youtube channel_id None pages ->
    List.length pages <= fuel ->
    (forall id,
        In id (listed_ids pages) ->
        exists item others, videos_list youtube id = Ok (item :: others)) ->
    exists videos log,
      get_videos_by_channel_id youtube fuel channel_id = Some (videos, log) /\
      map Video.video_id videos = listed_ids pages /\
      List.length videos = List.length (listed_ids pages) /\
      List.length (listing_tokens log) = List.length pages.
Proof.
  intros youtube channel_id pages fuel Hserved Hfuel Hfound.
  destruct (videos_loop_pages youtube channel_id pages fuel [] None
              Hserved Hfuel) as (log & Hrun).
  exists (flat_map (found_record youtube) (listed_ids pages)), log.
  pose proof (found_records_all youtube (listed_ids pages) Hfound) as Hids.
  split; [exact Hrun|]. split; [exact Hids|]. split.
  - now rewrite <- (length_map Video.video_id), Hids.
  - apply videos_loop_protocol in Hrun. destruct Hrun as (Hchain & _).
    clear Hfuel Hfound Hids. revert Hchain Hserved.
    generalize (listing_tokens log) as tokens. generalize (@None string).
    induction pages as [|page pages IH]; intros token tokens Hchain Hserved;
      [contradiction|].
    destruct tokens as [|t tokens]; [contradiction|].
    destruct Hchain as (-> & Hchain). destruct Hserved as (Hpage & Hserved).
    rewrite Hpage in Hchain. cbn [List.length]. f_equal.
    destruct pages as [|page' pages]; destruct tokens as [|t' tokens].
    + reflexivity.
    + destruct Hchain as (page0 & Hp0 & Hn0 & _).
      injection Hp0 as <-. congruence.
    + destruct Hserved as (Hn & _). congruence.
    + destruct Hchain as (page0 & Hp0 & _ & Hchain).
      injection Hp0 as <-. destruct Hserved as (_ & Hserved).
      exact (IH _ _ Hchain Hserved).
Qed.

Lemma complete_listing_in_order_witness :
  exists videos log,
    get_videos_by_channel_id demo_api 1 "UC123" = Some (videos, log) /\
    map Video.video_id videos = ["v1"; "v2"; "v3"].
Proof.
  destruct (complete_listing_in_order demo_api "UC123"
              [{| search_items :=
                    [{| videoId := "v1" |}; {| videoId := "v2" |};
                     {| videoId := "v3" |}];
                  search_nextPageToken := None |}] 1)
    as (videos & log & Hrun & Hids & _).
  - repeat split.
  - apply le_n.
  - intros id _. eexists. eexists. reflexivity.
  - exists videos, log. split; assumption.
Defined.

(** X4: the listing loop has no bound of its own.  Against a service
    whose every listing response carries a cursor, the video aggregator
    does not return, whatever the fuel. *)
Theorem endless_listing_never_returns :
  forall (youtube : api) (channel_id : string),
    (forall token,
        exists page,
          search_list youtube channel_id token = Ok page /\
          Py.truthy (search_nextPageToken page) = true) ->
    forall fuel, get_videos_by_channel_id youtube fuel channel_id = None.
Proof.
  intros youtube channel_id Hendless fuel. unfold get_videos_by_channel_id.
  generalize (@nil Video.t) as videos. generalize (@None string) as token.
  induction fuel as [|fuel IH]; intros token videos; [reflexivity|].
  rewrite videos_loop_step.
  destruct (Hendless token) as (page & -> & ->). cbv zeta.
  now rewrite IH.
Qed.

Lemma endless_listing_never_returns_witness :
  get_videos_by_channel_id endless_api 25 "UC123" = None.
Proof.
  apply (endless_listing_never_returns endless_api "UC123").
  intros token. eexists. split; reflexivity.
Defined.

(** ** Partial results and accounting of the comment aggregator *)

Lemma comments_loop_partial (youtube : api) (video_id : string)
    (max_comments : Z) (fuel : nat) :
  forall comments token count result log,
    comments_loop youtube fuel video_id max_comments comments token count
    = Some (result, log) ->
    result = comments ++ comments_of_log youtube log /\
    forallb fetching_event log = true /\
    forall before token' e after,
      log = before ++ Execute (CommentThreadsList video_id token') :: after ->
      commentThreads_list youtube video_id token' = Raise e ->
      after = [Print ("Error occurred while fetching comments: " ++ e)].
Proof.
  assert (Hstop : forall comments,
             comments = comments ++ comments_of_log youtube [] /\
             forallb fetching_event [] = true /\
             forall before token' e after,
               [] = before ++ Execute (CommentThreadsList video_id token')
                           :: after ->
               commentThreads_list youtube video_id token' = Raise e ->
               after = [Print ("Error occurred while fetching comments: "
                               ++ e)]).
  { intros comments. split; [now rewrite app_nil_r|]. split; [reflexivity|].
    intros [|? ?] ? ? ? ?; discriminate. }
  induction fuel as [|fuel IH]; intros comments token count result log.
  - cbn [comments_loop].
    destruct (count <? max_comments)%Z; [discriminate|].
    intros H. injection H as <- <-. apply Hstop.
  - rewrite comments_loop_step.
    destruct (count <? max_comments)%Z;
      [|intros H; injection H as <- <-; apply Hstop].
    destruct (commentThreads_list youtube video_id token) as [page|e0]
      eqn:Hpage.
    + cbv zeta.
      assert (Hhere : forall rest,
                 comments_of_log youtube
                   (Execute (CommentThreadsList video_id token) :: rest)
                 = page_records video_id (thread_items page)
                   ++ comments_of_log youtube rest).
      { intros rest. unfold comments_of_log. cbn [flat_map].
        now rewrite Hpage. }
      destruct (Py.truthy (thread_nextPageToken page)).
      * destruct (comments_loop _ _ _ _ _ _ _) as [[r rest]|] eqn:Hloop;
          [|discriminate].
        intros H. injection H as <- <-.
        destruct (IH _ _ _ _ _ Hloop) as (-> & Hevents & Hraise).
        split; [now rewrite Hhere, app_assoc|]. split; [exact Hevents|].
        intros before token' e' after Hlog Hfail.
        destruct before as [|b before].
        -- injection Hlog as <- _. congruence.
        -- injection Hlog as _ Hrest. eapply Hraise; eassumption.
      * intros H. injection H as <- <-.
        split; [now rewrite Hhere, app_nil_r|]. split; [reflexivity|].
        intros [|? [|? ?]] token' e' after Hlog Hfail; try discriminate.
        injection Hlog as <- _. congruence.
    + intros H. injection H as <- <-. split; [|split; [reflexivity|]].
      * unfold comments_of_log. cbn [flat_map]. rewrite Hpage.
        now rewrite app_nil_r.
      * intros [|? [|? [|? ?]]] token' e' after Hlog Hfail;
          try discriminate.
        injection Hlog as Htok Hafter. subst token' after.
        rewrite Hpage in Hfail. now injection Hfail as ->.
Qed.

(** X5: the comment aggregator keeps what it has when a request raises.
    In every run that returns, the result is the concatenation of the
    records of the answered requests of its log, each page flattened in
    order; a request that raised is the last one, followed only by the
    printed error, so the result is what was accumulated before it; and the
    log holds nothing but comment requests and printed lines. *)
Theorem comment_error_keeps_partial_result :
  forall (youtube : api) (fuel : nat) (video_id : string) (max_comments : Z)
         (comments : list Comment.t) (log : list event),
    get_comments_by_video_id youtube fuel video_id max_comments
    = Some (comments, log) ->
    comments = comments_of_log youtube log /\
    forallb fetching_event log = true /\
    forall before token e after,
      log = before ++ Execute (CommentThreadsList video_id token) :: after ->
      commentThreads_list youtube video_id token = Raise e ->
      after = [Print ("Error occurred while fetching comments: " ++ e)] /\
      comments = comments_of_log youtube before.
Proof.
  intros youtube fuel video_id max_comments comments log Hrun.
  apply comments_loop_partial in Hrun.
  destruct Hrun as (Hacc & Hevents & Hraise). simpl in Hacc.
  split; [exact Hacc|]. split; [exact Hevents|].
  intros before token e after Hlog Hfail.
  pose proof (Hraise _ _ _ _ Hlog Hfail) as ->. split; [reflexivity|].
  rewrite Hacc, Hlog. unfold comments_of_log. rewrite flat_map_app.
  cbn [flat_map]. rewrite Hfail. now rewrite app_nil_r.
Qed.

Lemma comment_error_keeps_partial_result_witness :
  [top_level_record "v1" busy_thread;
   reply_record "v1" "t1" (sample_reply "t1.r1");
   reply_record "v1" "t1" (sample_reply "t1.r2")]
  = comments_of_log comment_outage_api
      [Execute (CommentThreadsList "v1" None)].
Proof.
  apply (proj2 (proj2 (comment_error_keeps_partial_result
                         comment_outage_api 2 "v1" 10%Z _
                         ([Execute (CommentThreadsList "v1" None)] ++
                          Execute (CommentThreadsList "v1" (Some "p2")) ::
                          [Print "Error occurred while fetching comments: quota exceeded"])
                         eq_refl))
           _ (Some "p2") "quota exceeded" _ eq_refl eq_refl).
Defined.

Lemma page_records_length (video_id : string) (items : list thread_item) :
  List.length (page_records video_id items)
  = List.length items + replies_carried items.
Proof.
  induction items as [|item items IH]; [reflexivity|].
  change (page_records video_id (item :: items))
    with (thread_records video_id item ++ page_records video_id items).
  rewrite length_app, IH. unfold replies_carried, thread_records.
  cbn [map list_sum List.length].
  destruct (replies item) as [rs|]; [rewrite length_map|]; simpl; lia.
Qed.

Lemma comments_of_log_length (youtube : api) (log : list event) :
  List.length (comments_of_log youtube log)
  = list_sum (map (threads_in youtube) log)
    + list_sum (map (replies_in youtube) log).
Proof.
  induction log as [|e log IH]; [reflexivity|].
  unfold comments_of_log in *. cbn [flat_map map list_sum].
  rewrite length_app, IH.
  destruct e as [[h|c t|v|v t]|l|p|f sh rows]; cbn [threads_in replies_in];
    try (simpl; lia).
  destruct (commentThreads_list youtube v t) as [page|e];
    [rewrite page_records_length|]; simpl; lia.
Qed.

Lemma page_records_video_id (video_id : string) (items : list thread_item) :
  Forall (fun c => Comment.video_id c = video_id)
         (page_records video_id items).
Proof.
  unfold page_records. apply Forall_flat_map, Forall_forall.
  intros item _. unfold thread_records. constructor; [reflexivity|].
  destruct (replies item) as [rs|]; [|constructor].
  apply Forall_map, Forall_forall. now intros reply _.
Qed.

Lemma comments_loop_video_id (youtube : api) (video_id : string)
    (max_comments : Z) (fuel : nat) :
  forall comments token count result log,
    Forall (fun c => Comment.video_id c = video_id) comments ->
    comments_loop youtube fuel video_id max_comments comments token count
    = Some (result, log) ->
    Forall (fun c => Comment.video_id c = video_id) result.
Proof.
  induction fuel as [|fuel IH]; intros comments token count result log Hall.
  - cbn [comments_loop]. destruct (count <? max_comments)%Z;
      [discriminate|]. intros H. now injection H as <- _.
  - rewrite comments_loop_step.
    destruct (count <? max_comments)%Z;
      [|intros H; now injection H as <- _].
    destruct (commentThreads_list youtube video_id token) as [page|e].
    + cbv zeta.
      assert (Hall' : Forall (fun c => Comment.video_id c = video_id)
                        (comments
                         ++ page_records video_id (thread_items page))).
      { apply Forall_app. split;
          [assumption | apply page_records_video_id]. }
      destruct (Py.truthy (thread_nextPageToken page)).
      * destruct (comments_loop _ _ _ _ _ _ _) as [[r rest]|] eqn:Hloop;
          [|discriminate].
        intros H. injection H as <- _. eapply IH; eassumption.
      * intros H. now injection H as <- _.
    + intros H. now injection H as <- _.
Qed.

(** X6: every record the comment aggregator returns carries the video id
    it was called with, and the length of the result is the number of
    threads processed plus the number of replies those threads carried:
    the replies are what the thread count of the cap does not see. *)
Theorem comment_records_accounted :
  forall (youtube : api) (fuel : nat) (video_id : string) (max_comments : Z)
         (comments : list Comment.t) (log : list event),
    get_comments_by_video_id youtube fuel video_id max_comments
    = Some (comments, log) ->
    Forall (fun c => Comment.video_id c = video_id) comments /\
    Z.of_nat (List.length comments)
    = (threads_processed youtube log
       + Z.of_nat (list_sum (map (replies_in youtube) log)))%Z.
Proof.
  intros youtube fuel video_id max_comments comments log Hrun. split.
  - eapply comments_loop_video_id; [constructor | exact Hrun].
  - apply comments_loop_partial in Hrun. destruct Hrun as (-> & _).
    cbn [app]. rewrite comments_of_log_length. unfold threads_processed. lia.
Qed.

Lemma comment_records_accounted_witness :
  (5 = threads_processed threaded_api
         [Execute (CommentThreadsList "v1" None);
          Execute (CommentThreadsList "v1" (Some "p2"))]
       + 2)%Z.
Proof.
  apply (proj2 (comment_records_accounted threaded_api 2 "v1" 2%Z
                  [top_level_record "v1" busy_thread;
                   reply_record "v1" "t1" (sample_reply "t1.r1");
                   reply_record "v1" "t1" (sample_reply "t1.r2");
                   top_level_record "v1" (plain_thread "t2");
                   top_level_record "v1" (plain_thread "t3")]
                  [Execute (CommentThreadsList "v1" None);
                   Execute (CommentThreadsList "v1" (Some "p2"))]
                  eq_refl)).
Defined.

(** ** How far the comment aggregator can go *)

Lemma comments_loop_overshoot (youtube : api) (video_id : string)
    (max_comments : Z) (page_size : nat) :
  (forall token page,
      commentThreads_list youtube video_id token = Ok page ->
      List.length (thread_items page) <= page_size) ->
  forall fuel comments token count result log,
    comments_loop youtube fuel video_id max_comments comments token count
    = Some (result, log) ->
    (count < max_comments)%Z ->
    (count + threads_processed youtube log
     < max_comments + Z.of_nat page_size)%Z.
Proof.
  intros Hsize. induction fuel as [|fuel IH];
    intros comments token count result log Hrun Hlt.
  - revert Hrun. cbn [comments_loop].
    destruct (Z.ltb_spec count max_comments); [discriminate | lia].
  - revert Hrun. rewrite comments_loop_step.
    destruct (Z.ltb_spec count max_comments) as [_|Hge]; [|lia].
    destruct (commentThreads_list youtube video_id token) as [page|e]
      eqn:Hpage.
    + pose proof (Hsize _ _ Hpage) as Hle. cbv zeta.
      assert (Hhere :
                threads_in youtube
                  (Execute (CommentThreadsList video_id token))
                = List.length (thread_items page)).
      { simpl. now rewrite Hpage. }
      destruct (Py.truthy (thread_nextPageToken page)).
      * destruct (comments_loop _ _ _ _ _ _ _) as [[r rest]|] eqn:Hloop;
          [|discriminate].
        intros H. injection H as _ <-.
        rewrite threads_processed_cons, Hhere.
        destruct (Z.lt_ge_cases
                    (count + Z.of_nat (List.length (thread_items page)))
                    max_comments) as [Hlt'|Hge'].
        -- pose proof (IH _ _ _ _ _ Hloop Hlt'). lia.
        -- apply comments_loop_log in Hloop.
           destruct Hloop as ([(-> & _) | (? & _ & Hcontra)] & _); [|lia].
           unfold threads_processed. simpl. lia.
      * intros H. injection H as _ <-.
        rewrite threads_processed_cons, Hhere.
        unfold threads_processed. simpl. lia.
    + intros H. injection H as _ <-.
      unfold threads_processed. simpl. rewrite Hpage. simpl. lia.
Qed.

(** X7: the cap is overshot by less than one page.  If no response holds
    more than [page_size] threads, a call with [max_comments > 0] processes
    fewer than [max_comments + page_size] threads, and so returns fewer
    than [max_comments + page_size] records plus the replies the processed
    threads carried. *)
Theorem cap_overshoot_below_one_page :
  forall (youtube : api) (fuel : nat) (video_id : string) (max_comments : Z)
         (page_size : nat) (comments : list Comment.t) (log : list event),
    (forall token page,
        commentThreads_list youtube video_id token = Ok page ->
        List.length (thread_items page) <= page_size) ->
    (0 < max_comments)%Z ->
    get_comments_by_video_id youtube fuel video_id max_comments
    = Some (comments, log) ->
    (threads_processed youtube log < max_comments + Z.of_nat page_size)%Z /\
    (Z.of_nat (List.length comments)
     < max_comments + Z.of_nat page_size
       + Z.of_nat (list_sum (map (replies_in youtube) log)))%Z.
Proof.
  intros youtube fuel video_id max_comments page_size comments log
         Hsize Hmax Hrun.
  pose proof (comments_loop_overshoot _ _ _ _ Hsize _ _ _ _ _ _ Hrun Hmax)
    as Hbound.
  apply comments_loop_partial in Hrun. destruct Hrun as (-> & _).
  cbn [app]. rewrite comments_of_log_length.
  unfold threads_processed in *. lia.
Qed.

Lemma cap_overshoot_below_one_page_witness :
  (threads_processed threaded_api
     [Execute (CommentThreadsList "v1" None);
      Execute (CommentThreadsList "v1" (Some "p2"))] < 2 + 2)%Z.
Proof.
  refine (proj1 (cap_overshoot_below_one_page threaded_api 2 "v1" 2%Z 2
                   [top_level_record "v1" busy_thread;
                    reply_record "v1" "t1" (sample_reply "t1.r1");
                    reply_record "v1" "t1" (sample_reply "t1.r2");
                    top_level_record "v1" (plain_thread "t2");
                    top_level_record "v1" (plain_thread "t3")]
                   [Execute (CommentThreadsList "v1" None);
                    Execute (CommentThreadsList "v1" (Some "p2"))]
                   _ eq_refl eq_refl)).
  intros [tok|] page H; injection H as <-; simpl; lia.
Defined.

Lemma comments_loop_terminates (youtube : api) (video_id : string)
    (max_comments : Z) :
  (forall token page,
      commentThreads_list youtube video_id token = Ok page ->
      Py.truthy (thread_nextPageToken page) = true ->
      thread_items page <> []) ->
  forall fuel comments token count,
    Z.to_nat (max_comments - count) <= fuel ->
    exists result log,
      comments_loop youtube fuel video_id max_comments comments token count
      = Some (result, log) /\
      List.length (filter is_request log)
      <= Z.to_nat (max_comments - count).
Proof.
  intros Hprogress. induction fuel as [|fuel IH];
    intros comments token count Hfuel.
  - cbn [comments_loop].
    destruct (Z.ltb_spec count max_comments); [lia|].
    exists comments, []. split; [reflexivity | simpl; lia].
  - rewrite comments_loop_step.
    destruct (Z.ltb_spec count max_comments) as [Hlt|Hge].
    2:{ exists comments, []. split; [reflexivity | simpl; lia]. }
    destruct (commentThreads_list youtube video_id token) as [page|e]
      eqn:Hpage.
    + cbv zeta.
      destruct (Py.truthy (thread_nextPageToken page)) eqn:Hnext.
      * pose proof (Hprogress _ _ Hpage Hnext) as Hne.
        assert (Hlen : 1 <= List.length (thread_items page)).
        { destruct (thread_items page); [contradiction | simpl; lia]. }
        destruct (IH (comments ++ page_records video_id (thread_items page))
                     (thread_nextPageToken page)
                     (count + Z.of_nat (List.length (thread_items page)))%Z)
          as (result & rest & -> & Hcount); [lia|].
        eexists. eexists. split; [reflexivity|].
        cbn [filter is_request List.length]. lia.
      * eexists. eexists. split; [reflexivity|]. simpl. lia.
    + eexists. eexists. split; [reflexivity|]. simpl. lia.
Qed.

(** X8: when every response that carries a cursor also carries at least
    one thread, the comment aggregator returns, and it does so within
    [max_comments] requests: fuel [max_comments] is enough and the log
    holds at most [max_comments] requests (none when [max_comments <= 0]). *)
Theorem comment_requests_bounded_by_cap :
  forall (youtube : api) (video_id : string) (max_comments : Z) (fuel : nat),
    (forall token page,
        commentThreads_list youtube video_id token = Ok page ->
        Py.truthy (thread_nextPageToken page) = true ->
        thread_items page <> []) ->
    Z.to_nat max_comments <= fuel ->
    exists comments log,
      get_comments_by_video_id youtube fuel video_id max_comments
      = Some (comments, log) /\
      List.length (filter is_request log) <= Z.to_nat max_comments.
Proof.
  intros youtube video_id max_comments fuel Hprogress Hfuel.
  destruct (comments_loop_terminates youtube video_id max_comments Hprogress
              fuel [] None 0%Z) as (result & log & Hrun & Hcount).
  - now rewrite Z.sub_0_r.
  - rewrite Z.sub_0_r in Hcount. now exists result, log.
Qed.

Lemma comment_requests_bounded_by_cap_witness :
  exists comments log,
    get_comments_by_video_id threaded_api 2 "v1" 2
    = Some (comments, log) /\
    List.length (filter is_request log) <= 2.
Proof.
  apply (comment_requests_bounded_by_cap threaded_api "v1" 2%Z 2).
  - intros [tok|] page Hpage Hnext.
    + injection Hpage as <-. discriminate.
    + injection Hpage as <-. discriminate.
  - apply le_n.
Defined.

(** X9: the comment loop only advances on threads.  Against a service
    whose every response for the video holds no thread but carries a
    cursor, a call with [max_comments > 0] does not return, whatever the
    fuel. *)
Theorem empty_pages_never_return :
  forall (youtube : api) (video_id : string) (max_comments : Z),
    (forall token,
        exists page,
          commentThreads_list youtube video_id token = Ok page /\
          thread_items page = [] /\
          Py.truthy (thread_nextPageToken page) = true) ->
    (0 < max_comments)%Z ->
    forall fuel,
      get_comments_by_video_id youtube fuel video_id max_comments = None.
Proof.
  intros youtube video_id max_comments Hstall Hmax fuel.
  unfold get_comments_by_video_id.
  generalize (@nil Comment.t) as comments.
  generalize (@None string) as token.
  induction fuel as [|fuel IH]; intros token comments.
  - cbn [comments_loop]. now destruct (Z.ltb_spec 0 max_comments); [|lia].
  - rewrite comments_loop_step.
    destruct (Z.ltb_spec 0 max_comments); [|lia].
    destruct (Hstall token) as (page & -> & Hitems & ->). cbv zeta.
    rewrite Hitems. cbn [List.length Z.of_nat Z.add]. now rewrite IH.
Qed.

Lemma empty_pages_never_return_witness :
  get_comments_by_video_id stalled_api 40 "v1" 5 = None.
Proof.
  apply (empty_pages_never_return stalled_api "v1" 5%Z).
  - intros token. eexists. repeat split.
  - reflexivity.
Defined.

(** ** What a run of the orchestrator does, and in which order *)

Lemma main_blank_id (youtube : api) (openpyxl : sheets) (fuel : nat)
    (username_line count_line : string) (max_comments : Z)
    (username : string) (item : channel_item) (items : list channel_item) :
  Py.int count_line = Some max_comments ->
  Py.last_item (Py.split "/" username_line) = Some username ->
  channels_list youtube username = Ok (Some (item :: items)) ->
  Py.truthy (Some (channel_id_of item)) = false ->
  main youtube openpyxl fuel username_line count_line =
  Some (NoChannel, prompts ++ [Execute (ChannelsList username)]).
Proof.
  intros Hint Hlast Hchannel Hfalsy.
  unfold main. rewrite !bind_emit, Hint, Hlast.
  unfold get_channel_id_by_username. rewrite bind_execute, Hchannel.
  unfold bind at 1. cbn [ret]. now rewrite Hfalsy.
Qed.

(** X1: a channel whose identifier comes back as the empty string counts
    as not resolved, silently.  [main] returns right after the resolution
    request: it prints no report, lists no video and saves no workbook. *)
Theorem blank_channel_id_aborts_silently :
  forall (youtube : api) (openpyxl : sheets) (fuel : nat)
         (username_line count_line : string)
         (max_comments : Z) (username : string)
         (item : channel_item) (items : list channel_item),
    Py.int count_line = Some max_comments ->
    Py.last_item (Py.split "/" username_line) = Some username ->
    channels_list youtube username = Ok (Some (item :: items)) ->
    channel_id_of item = EmptyString ->
    main youtube openpyxl fuel username_line count_line =
    Some (NoChannel, prompts ++ [Execute (ChannelsList username)]).
Proof.
  intros youtube openpyxl fuel username_line count_line n u item items
         Hint Hlast Hchannel Hblank.
  apply (main_blank_id _ _ _ _ _ n u item items); try assumption.
  now rewrite Hblank.
Qed.

Lemma blank_channel_id_aborts_silently_witness :
  main blank_id_api plain_sheets 3 "example" "10" =
  Some (NoChannel, prompts ++ [Execute (ChannelsList "example")]).
Proof.
  apply (blank_channel_id_aborts_silently blank_id_api plain_sheets 3
           "example" "10" 10
           "example" {| channel_id_of := EmptyString |} []);
    reflexivity.
Defined.

Lemma collect_comments_content (youtube : api) (fuel : nat)
    (max_comments : Z) (ids : list string) (videos : list Video.t) :
  forall collected result log,
    incl (map Video.video_id videos) ids ->
    well_threaded collected ->
    Forall (fun c => In (Comment.video_id c) ids) collected ->
    collect_comments youtube fuel videos max_comments collected
    = Some (result, log) ->
    well_threaded result /\
    Forall (fun c => In (Comment.video_id c) ids) result /\
    forallb fetching_event log = true.
Proof.
  induction videos as [|video videos IH];
    intros collected result log Hincl Hwt Hids.
  - intros H. injection H as <- <-. now repeat split.
  - cbn [collect_comments].
    destruct (Z.of_nat (List.length collected) >=? max_comments)%Z.
    + intros H. injection H as <- <-. now repeat split.
    + intros H. apply bind_Some in H.
      destruct H as (comments & log1 & log2 & Hfetch & Hrest & ->).
      pose proof (comments_loop_well_threaded _ _ _ _ _ _ _ _ _
                    well_threaded_nil Hfetch) as Hwt1.
      pose proof (comments_loop_video_id _ _ _ _ _ _ _ _ _
                    (Forall_nil _) Hfetch) as Hid1.
      apply comments_loop_partial in Hfetch.
      destruct Hfetch as (_ & Hevents1 & _).
      destruct (IH (collected ++ comments) result log2)
        as (Hwt' & Hids' & Hevents2); try assumption.
      * intros id Hin. apply Hincl. now right.
      * now apply well_threaded_app.
      * apply Forall_app. split; [assumption|].
        eapply Forall_impl; [|exact Hid1].
        intros c ->. apply Hincl. now left.
      * repeat split; try assumption.
        now rewrite forallb_app, Hevents1, Hevents2.
Qed.


(** X11: a run of [main] that reaches the exports does things in one
    order.  After the prompts it makes a single resolution request for the
    last segment of the input line, then the video aggregator's requests
    and printed lines, then it saves [videos_data_<handle>.xlsx]; only then
    come the comment requests, and last it saves
    [comments_data_of_<handle>.xlsx].  No comment is requested before the
    video workbook is saved and no listing or detail request comes after. *)
Theorem main_effects_in_order :
  forall (youtube : api) (openpyxl : sheets) (fuel : nat)
         (username_line count_line : string)
         (log : list event),
    main youtube openpyxl fuel username_line count_line
    = Some (Completed, log) ->
    exists username channel_id videos listing comments fetching,
      Py.last_item (Py.split "/" username_line) = Some username /\
      log = prompts
            ++ [Execute (ChannelsList username);
                Print ("Fetching videos for channel ID: " ++ channel_id)]
            ++ listing ++ video_export username videos
            ++ fetching ++ comment_export username comments /\
      forallb listing_event listing = true /\
      forallb fetching_event fetching = true.
Proof.
  intros youtube openpyxl fuel username_line count_line log Hrun.
  destruct (main_completed_log _ _ _ _ _ _ Hrun)
    as (n & u & c & videos & listing & comments & fetching
        & _ & Hu & Hvideos & Hcollect & ->).
  exists u, c, videos, listing, comments, fetching.
  split; [exact Hu|]. split; [reflexivity|]. split.
  - apply videos_loop_protocol in Hvideos. now destruct Hvideos as (_ & _ & H).
  - eapply (collect_comments_content youtube fuel n
              (map Video.video_id videos) videos [] comments fetching).
    + apply incl_refl.
    + apply well_threaded_nil.
    + constructor.
    + exact Hcollect.
Qed.

Lemma main_effects_in_order_witness :
  exists username channel_id videos listing comments fetching,
    Py.last_item (Py.split "/" "youtube.com/example") = Some username /\
    prompts
    ++ [Execute (ChannelsList "example");
        Print "Fetching videos for channel ID: UC123"]
    ++ [Execute (SearchList "UC123" None); Execute (VideosList "v1");
        Execute (VideosList "v2"); Execute (VideosList "v3")]
    ++ video_export "example"
         [video_record "v1" (sample_video_item "v1");
          video_record "v2" (sample_video_item "v2");
          video_record "v3" (sample_video_item "v3")]
    ++ [Execute (CommentThreadsList "v1" None)]
    ++ comment_export "example"
         [top_level_record "v1" (plain_thread "v1-c1");
          top_level_record "v1" (plain_thread "v1-c2")]
    = prompts
      ++ [Execute (ChannelsList username);
          Print ("Fetching videos for channel ID: " ++ channel_id)]
      ++ listing ++ video_export username videos
      ++ fetching ++ comment_export username comments /\
    forallb listing_event listing = true /\
    forallb fetching_event fetching = true.
Proof.
  apply (main_effects_in_order demo_api plain_sheets 1
           "youtube.com/example" "2").
  reflexivity.
Defined.

(** X12: the comment workbook of a completed run is consistent with its
    video workbook: every exported comment carries the id of one of the
    listed videos, and across the whole sheet every reply comes after the
    record it answers. *)
Theorem exported_comments_consistent :
  forall (youtube : api) (openpyxl : sheets) (fuel : nat)
         (username_line count_line : string)
         (log : list event),
    main youtube openpyxl fuel username_line count_line
    = Some (Completed, log) ->
    exists username videos comments,
      In (SaveWorkbook ("videos_data_" ++ username ++ ".xlsx") "Videos"
            (video_headers :: map video_row videos)) log /\
      In (SaveWorkbook ("comments_data_of_" ++ username ++ ".xlsx")
            "Comments" (comment_headers :: map comment_row comments)) log /\
      Forall (fun c => In (Comment.video_id c)
                          (map Video.video_id videos)) comments /\
      well_threaded comments.
Proof.
  intros youtube openpyxl fuel username_line count_line log Hrun.
  destruct (main_completed_log _ _ _ _ _ _ Hrun)
    as (n & u & c & videos & listing & comments & fetching
        & _ & _ & _ & Hcollect & ->).
  exists u, videos, comments.
  destruct (collect_comments_content youtube fuel n
              (map Video.video_id videos) videos [] comments fetching
              (incl_refl _) well_threaded_nil (Forall_nil _) Hcollect)
    as (Hwt & Hids & _).
  unfold completed_log. repeat split; try assumption.
  - apply in_or_app. right. apply in_or_app. right.
    apply in_or_app. right. apply in_or_app. left. now left.
  - apply in_or_app. right. apply in_or_app. right.
    apply in_or_app. right. apply in_or_app. right.
    apply in_or_app. right. now left.
Qed.

Lemma exported_comments_consistent_witness :
  exists username videos comments,
    In (SaveWorkbook ("videos_data_" ++ username ++ ".xlsx") "Videos"
          (video_headers :: map video_row videos))
       (completed_log "example" "UC123"
          [video_record "v1" (sample_video_item "v1")]
          [Execute (SearchList "UC123" None); Execute (VideosList "v1")]
          [top_level_record "v1" busy_thread;
           reply_record "v1" "t1" (sample_reply "t1.r1");
           reply_record "v1" "t1" (sample_reply "t1.r2")]
          [Execute (CommentThreadsList "v1" None)]) /\
    In (SaveWorkbook ("comments_data_of_" ++ username ++ ".xlsx")
          "Comments" (comment_headers :: map comment_row comments))
       (completed_log "example" "UC123"
          [video_record "v1" (sample_video_item "v1")]
          [Execute (SearchList "UC123" None); Execute (VideosList "v1")]
          [top_level_record "v1" busy_thread;
           reply_record "v1" "t1" (sample_reply "t1.r1");
           reply_record "v1" "t1" (sample_reply "t1.r2")]
          [Execute (CommentThreadsList "v1" None)]) /\
    Forall (fun c => In (Comment.video_id c)
                        (map Video.video_id videos)) comments /\
    well_threaded comments.
Proof.
  apply (exported_comments_consistent threaded_api plain_sheets 1
           "example" "1").
  reflexivity.
Defined.

Lemma collect_comments_no_budget (youtube : api) (fuel : nat)
    (videos : list Video.t) (max_comments : Z) :
  (max_comments <= 0)%Z ->
  collect_comments youtube fuel videos max_comments [] = Some ([], []).
Proof.
  intros Hle. destruct videos as [|video videos]; [reflexivity|].
  cbn [collect_comments List.length].
  now destruct (Z.geb_spec (Z.of_nat 0) max_comments); [|lia].
Qed.

(** X10: with a comment count of zero or below, which [int()] accepts, a
    run whose handle resolves still lists the videos: whatever the
    spreadsheet library answers, the run returns, its log starts with the
    resolution and the whole log of the video aggregator, and it holds no
    comment request, the loop over the videos leaving at its first test.
    When the library accepts both sheets the run completes: it saves the
    videos the aggregator returned, and a comment workbook that holds the
    header row alone. *)
Theorem no_budget_exports_header_only :
  forall (youtube : api) (openpyxl : sheets) (fuel : nat)
         (username_line count_line : string) (max_comments : Z)
         (username : string) (item : channel_item)
         (items : list channel_item) (videos : list Video.t)
         (listing : list event),
    Py.int count_line = Some max_comments ->
    (max_comments <= 0)%Z ->
    Py.last_item (Py.split "/" username_line) = Some username ->
    channels_list youtube username = Ok (Some (item :: items)) ->
    Py.truthy (Some (channel_id_of item)) = true ->
    get_videos_by_channel_id youtube fuel (channel_id_of item)
    = Some (videos, listing) ->
    (exists e log,
        main youtube openpyxl fuel username_line count_line
        = Some (e, log)) /\
    (forall e log,
        main youtube openpyxl fuel username_line count_line
        = Some (e, log) ->
        (exists rest,
            log = listed_log username (channel_id_of item) listing ++ rest) /\
        forall video_id token,
          ~ In (Execute (CommentThreadsList video_id token)) log) /\
    (video_sheet openpyxl username videos = Ok tt ->
     comment_sheet openpyxl username [] = Ok tt ->
     main youtube openpyxl fuel username_line count_line
     = Some (Completed,
             listed_log username (channel_id_of item) listing
             ++ video_export username videos
             ++ [SaveWorkbook ("comments_data_of_" ++ username ++ ".xlsx")
                   "Comments" [comment_headers];
                 Print ("Excel file saved successfully: "
                        ++ "comments_data_of_" ++ username ++ ".xlsx")])).
Proof.
  intros youtube openpyxl fuel username_line count_line n u item items
         videos listing Hint Hle Hu Hchannel Htruthy Hvideos.
  pose proof (main_resolved youtube openpyxl fuel _ _ _ _ _ _
                Hint Hu Hchannel Htruthy) as Hmain.
  rewrite Hvideos, (collect_comments_no_budget _ _ _ _ Hle) in Hmain.
  assert (Hcompleted :
            completed_log u (channel_id_of item) videos listing [] []
            = listed_log u (channel_id_of item) listing
              ++ video_export u videos
              ++ [SaveWorkbook ("comments_data_of_" ++ u ++ ".xlsx")
                    "Comments" [comment_headers];
                  Print ("Excel file saved successfully: "
                         ++ "comments_data_of_" ++ u ++ ".xlsx")]).
  { unfold completed_log, listed_log. now rewrite <- !app_assoc. }
  assert (Hnone : forall video_id token,
             ~ In (Execute (CommentThreadsList video_id token))
                  (completed_log u (channel_id_of item) videos listing
                     [] [])).
  { intros video_id token Hin. apply completed_log_comment_request in Hin.
    destruct Hin as [Hin|[]].
    revert Hin. eapply videos_loop_no_comment_request. exact Hvideos. }
  destruct (listed_log_incl u (channel_id_of item) videos listing [] [])
    as (Hincl1 & Hincl2).
  split; [|split].
  - rewrite Hmain. destruct (video_sheet openpyxl u videos); [|eauto].
    destruct (comment_sheet openpyxl u []); eauto.
  - intros e log Hrun. rewrite Hmain in Hrun.
    destruct (video_sheet openpyxl u videos).
    + destruct (comment_sheet openpyxl u []);
        apply run_log_eq in Hrun; subst log.
      * split; [rewrite Hcompleted; eauto | exact Hnone].
      * split; [eauto|]. intros video_id token Hin.
        exact (Hnone video_id token (Hincl2 _ Hin)).
    + apply run_log_eq in Hrun. subst log. split.
      * exists []. now rewrite app_nil_r.
      * intros video_id token Hin.
        exact (Hnone video_id token (Hincl1 _ Hin)).
  - intros Hsheet1 Hsheet2.
    now rewrite Hmain, Hsheet1, Hsheet2, Hcompleted.
Qed.

Lemma no_budget_exports_header_only_witness :
  main demo_api plain_sheets 1 "example" "-5" =
  Some (Completed,
        listed_log "example" "UC123"
          [Execute (SearchList "UC123" None); Execute (VideosList "v1");
           Execute (VideosList "v2"); Execute (VideosList "v3")]
        ++ video_export "example"
             [video_record "v1" (sample_video_item "v1");
              video_record "v2" (sample_video_item "v2");
              video_record "v3" (sample_video_item "v3")]
        ++ [SaveWorkbook "comments_data_of_example.xlsx" "Comments"
              [comment_headers];
            Print "Excel file saved successfully: comments_data_of_example.xlsx"]).
Proof.
  refine (proj2 (proj2 (no_budget_exports_header_only demo_api plain_sheets 1
                          "example" "-5" (-5)%Z "example"
                          {| channel_id_of := "UC123" |} [] _ _
                          eq_refl _ eq_refl eq_refl eq_refl eq_refl))
            eq_refl eq_refl).
  discriminate.
Defined.

Lemma visited_with_last (youtube : api) (fuel : nat) (max_comments : Z)
    (visited : list Video.t) :
  forall collected fetched,
    visited_with youtube fuel max_comments collected visited fetched ->
    visited <> [] ->
    exists earlier video last last_log,
      collected ++ List.concat (map fst fetched) = earlier ++ last /\
      (Z.of_nat (List.length earlier) < max_comments)%Z /\
      In video visited /\
      get_comments_by_video_id youtube fuel (Video.video_id video)
        (max_comments - Z.of_nat (List.length earlier))
      = Some (last, last_log).
Proof.
  induction visited as [|video visited IH]; intros collected fetched Hv Hne;
    [contradiction|].
  destruct fetched as [|[comments log] fetched]; [contradiction|].
  destruct Hv as (Hlt & Hfetch & Hrest).
  destruct visited as [|video' visited].
  - destruct fetched; [|contradiction].
    exists collected, video, comments, log.
    repeat split; try assumption; [|now left].
    simpl. now rewrite app_nil_r.
  - destruct (IH _ _ Hrest) as (earlier & v & last & last_log
                                & Heq & Hlt' & Hin & Hlast);
      [discriminate|].
    exists earlier, v, last, last_log. repeat split; try assumption.
    + cbn [map fst List.concat]. now rewrite app_assoc.
    + now right.
Qed.

(** X13: across the videos the budget is kept up to one call.  When the
    loop of [main] has visited a video, the records it collected split
    into those held before the last call, strictly fewer than
    [max_comments], and those returned by that last call, made for one of
    the videos with what was left of the budget: whatever exceeds
    [max_comments] came from that single call. *)
Theorem budget_exceeded_only_by_last_call :
  forall (youtube : api) (fuel : nat) (videos : list Video.t)
         (max_comments : Z) (comments : list Comment.t) (log : list event),
    collect_comments youtube fuel videos max_comments []
    = Some (comments, log) ->
    log <> [] ->
    exists earlier video last last_log,
      comments = earlier ++ last /\
      (Z.of_nat (List.length earlier) < max_comments)%Z /\
      In video videos /\
      get_comments_by_video_id youtube fuel (Video.video_id video)
        (max_comments - Z.of_nat (List.length earlier))
      = Some (last, last_log).
Proof.
  intros youtube fuel videos max_comments comments log Hrun Hlog.
  destruct (collect_comments_visits _ _ _ _ _ _ _ Hrun)
    as (visited & skipped & fetched & -> & Hvisited & -> & -> & _).
  destruct visited as [|video visited].
  - destruct fetched; [now destruct Hlog | contradiction].
  - destruct (visited_with_last _ _ _ _ _ _ Hvisited)
      as (earlier & v & last & last_log & Heq & Hlt & Hin & Hlast);
      [discriminate|].
    exists earlier, v, last, last_log. repeat split; try assumption.
    apply in_or_app. now left.
Qed.

Lemma budget_exceeded_only_by_last_call_witness :
  exists earlier video last last_log,
    [top_level_record "v1" busy_thread;
     reply_record "v1" "t1" (sample_reply "t1.r1");
     reply_record "v1" "t1" (sample_reply "t1.r2")] = earlier ++ last /\
    (Z.of_nat (List.length earlier) < 2)%Z /\
    In video [video_record "v1" (sample_video_item "v1");
              video_record "v2" (sample_video_item "v2")] /\
    get_comments_by_video_id lone_thread_api 1 (Video.video_id video)
      (2 - Z.of_nat (List.length earlier))
    = Some (last, last_log).
Proof.
  apply (budget_exceeded_only_by_last_call lone_thread_api 1
           [video_record "v1" (sample_video_item "v1");
            video_record "v2" (sample_video_item "v2")]
           2%Z _ [Execute (CommentThreadsList "v1" None)] eq_refl).
  discriminate.
Defined.

(** ** The exported tables *)

Lemma video_row_injective (v1 v2 : Video.t) :
  video_row v1 = video_row v2 -> v1 = v2.
Proof.
  destruct v1 as [a1 b1 c1 d1 e1 f1 g1 h1 i1 j1 k1],
           v2 as [a2 b2 c2 d2 e2 f2 g2 h2 i2 j2 k2].
  unfold video_row. cbn.
  intros H. injection H as -> -> -> -> -> Hf Hg Hh -> -> ->.
  destruct f1, f2, g1, g2, h1, h2; try discriminate;
    repeat match goal with
           | H : opt_cell _ = opt_cell _ |- _ => cbn in H
           | H : CellStr _ = CellStr _ |- _ => injection H as ->
           end; reflexivity.
Qed.

Lemma comment_row_injective (c1 c2 : Comment.t) :
  comment_row c1 = comment_row c2 -> c1 = c2.
Proof.
  destruct c1 as [a1 b1 t1 d1 e1 f1 g1], c2 as [a2 b2 t2 d2 e2 f2 g2].
  unfold comment_row. cbn.
  intros H. injection H as -> -> -> -> -> -> Hg.
  destruct g1, g2; try discriminate; [|reflexivity].
  cbn in Hg. now injection Hg as ->.
Qed.

Lemma map_injective {A B : Type} (f : A -> B) :
  (forall x y, f x = f y -> x = y) ->
  forall xs ys, map f xs = map f ys -> xs = ys.
Proof.
  intros Hinj. induction xs as [|x xs IH]; intros [|y ys] H;
    try discriminate; [reflexivity|].
  injection H as Hhead Htail. f_equal; [now apply Hinj | now apply IH].
Qed.

Lemma append_rows_cases (openpyxl : sheets) (rows : list (list cell)) :
  (append_rows openpyxl rows = Ok tt /\
   Forall (fun row => ws_append openpyxl row = Ok tt) rows) \/
  (exists e before row after,
      append_rows openpyxl rows = Raise e /\
      rows = before ++ row :: after /\
      Forall (fun row => ws_append openpyxl row = Ok tt) before /\
      ws_append openpyxl row = Raise e).
Proof.
  induction rows as [|row rows IH]; [left; now split|].
  cbn [append_rows].
  destruct (ws_append openpyxl row) as [[]|e] eqn:Hrow.
  - destruct IH as [(Hok & Hall) | (e & before & r & after & Hraise & -> & Hall
                                    & Hr)].
    + left. split; [exact Hok | now constructor].
    + right. exists e, (row :: before), r, after.
      repeat split; try assumption. now constructor.
  - right. exists e, [], row, rows. repeat split; try assumption.
    constructor.
Qed.

Lemma sheet_exported (openpyxl : sheets) (filename title : string)
    (rows : list (list cell)) :
  exported openpyxl filename title rows
    (sheet_outcome openpyxl filename title rows)
    (match sheet_outcome openpyxl filename title rows with
     | Ok _ => [SaveWorkbook filename title rows;
                Print ("Excel file saved successfully: " ++ filename)]
     | Raise _ => []
     end).
Proof.
  unfold exported, sheet_outcome.
  destruct (append_rows_cases openpyxl rows)
    as [(-> & Hall) | (e & before & row & after & -> & Hrows & Hall & Hrow)].
  - destruct (wb_save openpyxl filename title rows) as [[]|e] eqn:Hsave.
    + left. now repeat split.
    + right. exists e. repeat split. right. now split.
  - right. exists e. repeat split. left. now exists before, row, after.
Qed.

(** X14: an export saves the whole sheet or nothing.  Each of the two
    export functions either appends every row and saves, which logs one
    workbook holding the header and one row per record and then the
    success line, or is left by an exception, raised by the first row the
    library refuses or by the save, and then neither a workbook nor the
    success line is logged.  A saved sheet loses nothing: two lists of
    records with the same rows are the same list, an absent count or
    [reply_to] being kept apart from any string. *)
Theorem export_all_or_nothing :
  forall (openpyxl : sheets) (videos : list Video.t)
         (comments : list Comment.t) (filename : string),
    (exists outcome log,
        save_videos_to_excel openpyxl videos filename
        = Some (outcome, log) /\
        exported openpyxl filename "Videos"
          (video_headers :: map video_row videos) outcome log) /\
    (exists outcome log,
        export_comments_to_excel openpyxl comments filename
        = Some (outcome, log) /\
        exported openpyxl filename "Comments"
          (comment_headers :: map comment_row comments) outcome log) /\
    (forall videos',
        map video_row videos' = map video_row videos -> videos' = videos) /\
    (forall comments',
        map comment_row comments' = map comment_row comments ->
        comments' = comments).
Proof.
  intros openpyxl videos comments filename. split; [|split; [|split]].
  - rewrite save_videos_to_excel_eq.
    pose proof (sheet_exported openpyxl filename "Videos"
                  (video_headers :: map video_row videos)) as H.
    destruct (sheet_outcome openpyxl filename "Videos" _) as [[]|e];
      eauto.
  - rewrite export_comments_to_excel_eq.
    pose proof (sheet_exported openpyxl filename "Comments"
                  (comment_headers :: map comment_row comments)) as H.
    destruct (sheet_outcome openpyxl filename "Comments" _) as [[]|e];
      eauto.
  - intros videos'. apply map_injective. exact video_row_injective.
  - intros comments'. apply map_injective. exact comment_row_injective.
Qed.

(** ** Runs that are sure to finish *)

Lemma collect_comments_terminates (youtube : api) (fuel : nat)
    (max_comments : Z) (videos : list Video.t) :
  (forall video_id token page,
      commentThreads_list youtube video_id token = Ok page ->
      Py.truthy (thread_nextPageToken page) = true ->
      thread_items page <> []) ->
  Z.to_nat max_comments <= fuel ->
  forall collected,
    exists result log,
      collect_comments youtube fuel videos max_comments collected
      = Some (result, log).
Proof.
  intros Hprogress Hfuel.
  induction videos as [|video videos IH]; intros collected.
  - now exists collected, [].
  - cbn [collect_comments].
    destruct (Z.of_nat (List.length collected) >=? max_comments)%Z;
      [now exists collected, []|].
    destruct (comments_loop_terminates youtube (Video.video_id video)
                (max_comments - Z.of_nat (List.length collected))
                (Hprogress (Video.video_id video)) fuel [] None 0%Z)
      as (comments & log1 & Hfetch & _); [lia|].
    unfold get_comments_by_video_id. rewrite Hfetch. unfold bind.
    destruct (IH (collected ++ comments)) as (result & log2 & ->).
    now exists result, (log1 ++ log2).
Qed.

Lemma sheet_outcome_accepted (openpyxl : sheets) (filename title : string)
    (rows : list (list cell)) :
  (forall row, ws_append openpyxl row = Ok tt) ->
  (forall name sheet table, wb_save openpyxl name sheet table = Ok tt) ->
  sheet_outcome openpyxl filename title rows = Ok tt.
Proof.
  intros Happend Hsave. unfold sheet_outcome.
  assert (Hrows : append_rows openpyxl rows = Ok tt).
  { induction rows as [|row rows IH]; [reflexivity|].
    cbn [append_rows]. now rewrite Happend. }
  now rewrite Hrows.
Qed.

(** X15: [main] is sure to return on a well-behaved service.  When the
    count parses, the handle resolves to a non-empty identifier, the
    channel's listing is a finite chain of pages and every comment
    response that carries a cursor carries a thread, a run with fuel for
    every listing page and for [max_comments] comment requests returns,
    whatever the spreadsheet library answers; and when the library accepts
    every row and every save, it returns through the final exports, both
    workbooks saved. *)
Theorem main_completes :
  forall (youtube : api) (openpyxl : sheets) (fuel : nat)
         (username_line count_line : string)
         (max_comments : Z) (username : string)
         (item : channel_item) (items : list channel_item)
         (pages : list search_response),
    Py.int count_line = Some max_comments ->
    Py.last_item (Py.split "/" username_line) = Some username ->
    channels_list youtube username = Ok (Some (item :: items)) ->
    Py.truthy (Some (channel_id_of item)) = true ->
    pages_served youtube (channel_id_of item) None pages ->
    (forall video_id token page,
        commentThreads_list youtube video_id token = Ok page ->
        Py.truthy (thread_nextPageToken page) = true ->
        thread_items page <> []) ->
    List.length pages <= fuel ->
    Z.to_nat max_comments <= fuel ->
    (exists e log,
        main youtube openpyxl fuel username_line count_line
        = Some (e, log)) /\
    ((forall row, ws_append openpyxl row = Ok tt) ->
     (forall name sheet table, wb_save openpyxl name sheet table = Ok tt) ->
     exists log,
       main youtube openpyxl fuel username_line count_line
       = Some (Completed, log) /\
       List.length (filter is_save log) = 2).
Proof.
  intros youtube openpyxl fuel username_line count_line n u item items pages
         Hint Hu Hchannel Htruthy Hserved Hprogress Hpages Hfuel.
  rewrite (main_resolved _ _ _ _ _ _ _ _ _ Hint Hu Hchannel Htruthy).
  destruct (videos_loop_pages youtube (channel_id_of item) pages fuel []
              None Hserved Hpages) as (listing & Hvideos).
  unfold get_videos_by_channel_id. rewrite Hvideos.
  destruct (collect_comments_terminates youtube fuel n
              ([] ++ flat_map (found_record youtube) (listed_ids pages))
              Hprogress Hfuel []) as (comments & fetching & Hcollect).
  rewrite Hcollect. split.
  - destruct (video_sheet openpyxl u _); [|eauto].
    destruct (comment_sheet openpyxl u _); eauto.
  - intros Happend Hsave. unfold video_sheet, comment_sheet.
    rewrite !(sheet_outcome_accepted _ _ _ _ Happend Hsave).
    eexists. split; [reflexivity|].
    pose proof Hvideos as Hlisting. apply videos_loop_protocol in Hlisting.
    destruct Hlisting as (_ & _ & Hlisting).
    pose proof (collect_comments_content youtube fuel n
                  (map Video.video_id
                     ([] ++ flat_map (found_record youtube)
                              (listed_ids pages)))
                  _ [] comments fetching (incl_refl _) well_threaded_nil
                  (Forall_nil _) Hcollect) as (_ & _ & Hfetching).
    assert (Hnone : forall events,
               (forallb listing_event events = true \/
                forallb fetching_event events = true) ->
               filter is_save events = []).
    { intros events Hall. induction events as [|e events IH]; [reflexivity|].
      cbn [forallb] in Hall. cbn [filter].
      destruct e as [r|l|p|f sh rows]; cbn [is_save].
      - apply IH. destruct Hall as [Hall|Hall];
          apply andb_prop in Hall; tauto.
      - apply IH. destruct Hall as [Hall|Hall];
          apply andb_prop in Hall; tauto.
      - destruct Hall as [Hall|Hall]; discriminate.
      - destruct Hall as [Hall|Hall]; discriminate. }
    unfold completed_log. rewrite !filter_app.
    rewrite (Hnone listing) by now left.
    rewrite (Hnone fetching) by now right.
    reflexivity.
Qed.

Lemma main_completes_witness :
  exists log,
    main demo_api plain_sheets 4 "example" "4" = Some (Completed, log) /\
    List.length (filter is_save log) = 2.
Proof.
  refine (proj2 (main_completes demo_api plain_sheets 4 "example" "4" 4%Z
                   "example" {| channel_id_of := "UC123" |} []
                   [{| search_items :=
                         [{| videoId := "v1" |}; {| videoId := "v2" |};
                          {| videoId := "v3" |}];
                       search_nextPageToken := None |}]
                   eq_refl eq_refl eq_refl eq_refl _ _ _ _) _ _).
  - repeat split.
  - intros video_id token page Hpage Hnext.
    injection Hpage as <-. discriminate.
  - repeat constructor.
  - repeat constructor.
  - reflexivity.
  - reflexivity.
Defined.

(** X16: an exception in an export leaves [main] where it is raised.  In a
    run whose handle resolves, when the export of the videos raises, the
    log ends with the video listing: no workbook is saved and no comment
    is requested.  When that export succeeds and the export of the
    comments raises, the video workbook has been saved and stays so, the
    comments were fetched, and no comment workbook is saved. *)
Theorem export_error_leaves_main :
  forall (youtube : api) (openpyxl : sheets) (fuel : nat)
         (username_line count_line : string) (max_comments : Z)
         (username : string) (item : channel_item)
         (items : list channel_item) (videos : list Video.t)
         (listing : list event),
    Py.int count_line = Some max_comments ->
    Py.last_item (Py.split "/" username_line) = Some username ->
    channels_list youtube username = Ok (Some (item :: items)) ->
    Py.truthy (Some (channel_id_of item)) = true ->
    get_videos_by_channel_id youtube fuel (channel_id_of item)
    = Some (videos, listing) ->
    (forall e,
        video_sheet openpyxl username videos = Raise e ->
        main youtube openpyxl fuel username_line count_line
        = Some (Uncaught e,
                listed_log username (channel_id_of item) listing) /\
        filter is_save (listed_log username (channel_id_of item) listing)
        = [] /\
        forall video_id token,
          ~ In (Execute (CommentThreadsList video_id token))
               (listed_log username (channel_id_of item) listing)) /\
    (forall e comments fetching,
        video_sheet openpyxl username videos = Ok tt ->
        collect_comments youtube fuel videos max_comments []
        = Some (comments, fetching) ->
        comment_sheet openpyxl username comments = Raise e ->
        main youtube openpyxl fuel username_line count_line
        = Some (Uncaught e,
                listed_log username (channel_id_of item) listing
                ++ video_export username videos ++ fetching) /\
        filter is_save
          (listed_log username (channel_id_of item) listing
           ++ video_export username videos ++ fetching)
        = [SaveWorkbook ("videos_data_" ++ username ++ ".xlsx") "Videos"
             (video_headers :: map video_row videos)]).
Proof.
  intros youtube openpyxl fuel username_line count_line n u item items
         videos listing Hint Hu Hchannel Htruthy Hvideos.
  pose proof (main_resolved youtube openpyxl fuel _ _ _ _ _ _
                Hint Hu Hchannel Htruthy) as Hmain.
  rewrite Hvideos in Hmain.
  pose proof Hvideos as Hlisting. apply videos_loop_protocol in Hlisting.
  destruct Hlisting as (_ & _ & Hlisting).
  assert (Hnone : forall events,
             (forallb listing_event events = true \/
              forallb fetching_event events = true) ->
             filter is_save events = []).
  { intros events Hall. induction events as [|e events IH]; [reflexivity|].
    cbn [forallb] in Hall. cbn [filter].
    destruct e as [r|l|p|f sh rows]; cbn [is_save].
    - apply IH. destruct Hall as [Hall|Hall];
        apply andb_prop in Hall; tauto.
    - apply IH. destruct Hall as [Hall|Hall];
        apply andb_prop in Hall; tauto.
    - destruct Hall as [Hall|Hall]; discriminate.
    - destruct Hall as [Hall|Hall]; discriminate. }
  split.
  - intros e Hsheet. rewrite Hsheet in Hmain. split; [exact Hmain|]. split.
    + unfold listed_log. rewrite !filter_app.
      now rewrite (Hnone listing) by now left.
    + intros video_id token Hin.
      destruct (listed_log_incl u (channel_id_of item) videos listing [] [])
        as (Hincl & _).
      apply Hincl, completed_log_comment_request in Hin.
      destruct Hin as [Hin|[]].
      revert Hin. eapply videos_loop_no_comment_request. exact Hvideos.
  - intros e comments fetching Hsheet1 Hcollect Hsheet2.
    rewrite Hsheet1, Hcollect, Hsheet2 in Hmain. split; [exact Hmain|].
    pose proof (collect_comments_content youtube fuel n
                  (map Video.video_id videos) videos [] comments fetching
                  (incl_refl _) well_threaded_nil (Forall_nil _) Hcollect)
      as (_ & _ & Hfetching).
    unfold listed_log. rewrite !filter_app.
    rewrite (Hnone listing) by now left.
    rewrite (Hnone fetching) by now right.
    reflexivity.
Qed.

Lemma export_error_leaves_main_witness :
  main tabbed_api strict_sheets 1 "example" "4" =
  Some (Uncaught "IllegalCharacterError",
        listed_log "example" "UC123"
          [Execute (SearchList "UC123" None); Execute (VideosList "v1");
           Execute (VideosList "v2"); Execute (VideosList "v3")]) /\
  main demo_api full_disk_sheets 1 "example" "2" =
  Some (Uncaught "OSError: No space left on device",
        listed_log "example" "UC123"
          [Execute (SearchList "UC123" None); Execute (VideosList "v1");
           Execute (VideosList "v2"); Execute (VideosList "v3")]
        ++ video_export "example"
             [video_record "v1" (sample_video_item "v1");
              video_record "v2" (sample_video_item "v2");
              video_record "v3" (sample_video_item "v3")]
        ++ [Execute (CommentThreadsList "v1" None)]).
Proof.
  split.
  - refine (proj1 (proj1 (export_error_leaves_main tabbed_api strict_sheets 1
                            "example" "4" 4%Z "example"
                            {| channel_id_of := "UC123" |} [] _ _
                            eq_refl eq_refl eq_refl eq_refl eq_refl)
                     "IllegalCharacterError" eq_refl)).
  - refine (proj1 (proj2 (export_error_leaves_main demo_api full_disk_sheets
                            1 "example" "2" 2%Z "example"
                            {| channel_id_of := "UC123" |} [] _ _
                            eq_refl eq_refl eq_refl eq_refl eq_refl)
                     "OSError: No space left on device" _ _
                     eq_refl eq_refl eq_refl)).
Defined.
